(** * dp-frontend-router: route table, middleware chain and analytics sink

    A shallow embedding of [router/router.go] and [analytics/backend_sqs.go].

    - Strings are [string]; a header set is a [gmap string (list string)], as
      Go's [http.Header] is a [map[string][]string].
    - An [http.Handler] held in [Config] is an interface value: [None] is Go's
      [nil], [Some h] a handler of an opaque type [H].
    - The gorilla/mux router is the ordered list of the routes registered on
      it; matching walks the list and the first route that matches wins.
    - Code that runs a handler threads the response writer through explicitly
      and returns a [result], so that a call through [nil] is a panic. *)

From Stdlib Require Import String Ascii ZArith Lia.
From stdpp Require Import base option list strings gmap.

Local Open Scope string_scope.
Local Open Scope list_scope.

(** ** Go building blocks *)

(** What a Go call ends in: it returns, or it panics. *)
Inductive result (A : Type) : Type :=
| Returned (a : A)
| Panicked (msg : string).
Arguments Returned {A} a.
Arguments Panicked {A} msg.

Global Instance result_ret : MRet result := fun A a => Returned a.

Global Instance result_bind : MBind result := fun A B k r =>
  match r with
  | Returned a => k a
  | Panicked msg => Panicked msg
  end.

Definition nil_dereference : string := "invalid memory address or nil pointer dereference".

(** [strings.HasPrefix(s, prefix)]. *)
Fixpoint HasPrefix (s prefix : string) {struct prefix} : bool :=
  match prefix with
  | EmptyString => true
  | String c prefix' =>
      match s with
      | EmptyString => false
      | String d s' => if Ascii.eqb d c then HasPrefix s' prefix' else false
      end
  end.

(** [s[n:]] for [n <= len(s)]. *)
Fixpoint string_drop (n : nat) (s : string) : string :=
  match n, s with
  | O, _ => s
  | S n', String _ s' => string_drop n' s'
  | S _, EmptyString => EmptyString
  end.

(** The part of [http.Request] the router reads. *)
Record Request : Type := mkRequest {
  Method : string;
  URL_Path : string
}.

(** The response under construction: the header map and what was written. *)
Record ResponseWriter : Type := mkResponseWriter {
  Header : gmap string (list string);
  Written : list string
}.

(** [w.Header().Set(key, value)]; both keys used here are already in
    canonical MIME form. *)
Definition Header_Set (w : ResponseWriter) (key value : string) : ResponseWriter :=
  {| Header := <[key := [value]]> (Header w); Written := Written w |}.

(** [http.HandlerFunc]: [func(w http.ResponseWriter, req *http.Request)]. *)
Definition HandlerFunc : Type := ResponseWriter -> Request -> result ResponseWriter.

(** [alice.Constructor]: [func(http.Handler) http.Handler]. *)
Definition Constructor : Type := HandlerFunc -> HandlerFunc.

(** [alice.New(cs...).Then(h)]: [cs[0](cs[1](... cs[n-1](h)))]. *)
Definition alice_Then (cs : list Constructor) (h : HandlerFunc) : HandlerFunc :=
  foldr (fun c acc => c acc) h cs.

(** Calling a func value that may be nil. *)
Definition call (f : option HandlerFunc) : HandlerFunc :=
  fun w req =>
    match f with
    | Some g => g w req
    | None => Panicked nil_dereference
    end.

Inductive LogEntry : Type :=
| log_Error (event : string) (err : string)
| log_Info (event : string) (data : list (string * string)).

(** ** router/router.go *)

Module Router.

Definition HTTPHeaderKeyXFrameOptions : string := "X-Frame-Options".

(** The value [config.Get()] hands back: a pointer to the process-wide
    configuration ([None] is a nil pointer) and an error. The configuration
    struct is declared in a file that is not at hand: its type [AppConfig] is
    left open, and the one field [New] reads is an accessor given with it. *)
Definition GetResult (AppConfig : Type) : Type := (option AppConfig * option string)%type.

(** The two matcher functions given to [router.MatcherFunc]. *)
Inductive MatcherFn : Type :=
| hasFileExtMatcher
| isKnownBabbageEndpointMatcher.

Inductive Matcher : Type :=
| Path (tpl : string)
| MatcherFunc (f : MatcherFn)
| PathPrefix (tpl : string).

(** The feature flags of [Config], one per boolean field. *)
Inductive Flag : Type :=
| FAreaProfileEnabled
| FNewDatasetRoutingEnabled
| FLegacySearchRedirectsEnabled
| FDataAggregationPagesEnabled
| FSearchRoutesEnabled
| FRelCalEnabled
| FUseNewReleaseCalendar
| FCensusAtlasEnabled
| FDatasetFinderEnabled.

Definition flagIndex (f : Flag) : nat :=
  match f with
  | FAreaProfileEnabled => 0
  | FNewDatasetRoutingEnabled => 1
  | FLegacySearchRedirectsEnabled => 2
  | FDataAggregationPagesEnabled => 3
  | FSearchRoutesEnabled => 4
  | FRelCalEnabled => 5
  | FUseNewReleaseCalendar => 6
  | FCensusAtlasEnabled => 7
  | FDatasetFinderEnabled => 8
  end.

Definition sameFlag (f g : Flag) : bool := Nat.eqb (flagIndex f) (flagIndex g).

Global Instance MatcherFn_eq_dec : EqDecision MatcherFn.
Proof. solve_decision. Defined.

Global Instance Matcher_eq_dec : EqDecision Matcher.
Proof. solve_decision. Defined.

Section Model.

(** [H]: handler values; [DC], [FC], [ZC]: the dataset, filter and zebedee
    clients. All are opaque to the router. *)
Context {H DC FC ZC : Type}.

Record Config : Type := mkConfig {
  HealthCheckHandler : option HandlerFunc;
  AnalyticsHandler : option H;
  AreaProfileEnabled : bool;
  AreaProfileHandler : option H;
  DownloadHandler : option H;
  DatasetHandler : option H;
  DatasetClient : DC;
  NewDatasetRoutingEnabled : bool;
  PrefixDatasetHandler : option H;
  CookieHandler : option H;
  FilterHandler : option H;
  FilterFlexHandler : option H;
  FilterClient : FC;
  FeedbackHandler : option H;
  ContentTypeByteLimit : Z;
  ZebedeeClient : ZC;
  LegacySearchRedirectsEnabled : bool;
  DataAggregationPagesEnabled : bool;
  SearchRoutesEnabled : bool;
  SiteDomain : string;
  SearchHandler : option H;
  RelCalHandler : option H;
  RelCalEnabled : bool;
  RelCalRoutePrefix : string;
  UseNewReleaseCalendar : bool;
  HomepageHandler : option H;
  BabbageHandler : option H;
  CensusAtlasHandler : option H;
  CensusAtlasEnabled : bool;
  DatasetFinderEnabled : bool
}.

(** What a route is bound to: a handler of [Config] as it is, or one wrapped
    by a collaborator's constructor. *)
Inductive HandlerExpr : Type :=
| Plain (h : option H)
| relcal_Handler (h : option H)
| datasetType_Handler (fc : FC) (dc : DC) (h flex : option H)
| redirects_DynamicRedirectHandler (from to : string).

(** The middleware value [allRoutes.Handler(handlers, client, limit)]. *)
Record allRoutes_Handler : Type := mkAllRoutes {
  handlers : gmap string (option H);
  zebedee : ZC;
  byteLimit : Z
}.

Inductive Target : Type :=
| ToHandler (e : HandlerExpr)
| ToSubrouter (use : list allRoutes_Handler) (sub : list (Matcher * HandlerExpr)).

Record Route : Type := mkRoute {
  matcher : Matcher;
  target : Target
}.

(** [router.Handle(tpl, h)]. *)
Definition Handle (tpl : string) (e : HandlerExpr) : Route :=
  {| matcher := Path tpl; target := ToHandler e |}.

(** [if cond { ... }] around a block of registrations. *)
Definition when (cond : bool) (rs : list Route) : list Route :=
  if cond then rs else [].

(** Lines 81-133 of [New]: the routes registered by path. *)
Definition staticRoutes (cfg : Config) : list Route :=
  [Handle "/" (Plain (HomepageHandler cfg))]
  ++ when (CensusAtlasEnabled cfg)
       [Handle "/census/maps{uri:.*}" (Plain (CensusAtlasHandler cfg))]
  ++ [Handle "/census" (Plain (HomepageHandler cfg))]
  ++ when (DatasetFinderEnabled cfg)
       [Handle "/census/find-a-dataset" (Plain (SearchHandler cfg))]
  ++ [Handle "/redir/{data:.*}" (Plain (AnalyticsHandler cfg));
      Handle "/download/{uri:.*}" (Plain (DownloadHandler cfg));
      Handle "/cookies{uri:.*}" (Plain (CookieHandler cfg));
      Handle "/datasets/{uri:.*}" (Plain (DatasetHandler cfg));
      Handle "/filters/{uri:.*}"
        (datasetType_Handler (FilterClient cfg) (DatasetClient cfg)
           (FilterHandler cfg) (FilterFlexHandler cfg));
      Handle "/filter-outputs/{uri:.*}" (Plain (FilterHandler cfg));
      Handle "/feedback{uri:.*}" (Plain (FeedbackHandler cfg))]
  ++ when (LegacySearchRedirectsEnabled cfg)
       [Handle "/searchdata" (redirects_DynamicRedirectHandler "/searchdata" "/search");
        Handle "/searchpublication"
          (redirects_DynamicRedirectHandler "/searchpublication" "/search")]
  ++ when (SearchRoutesEnabled cfg)
       (when (DataAggregationPagesEnabled cfg)
          [Handle "/alladhocs" (Plain (SearchHandler cfg));
           Handle "/datalist" (Plain (SearchHandler cfg));
           Handle "/allmethodologies" (Plain (SearchHandler cfg));
           Handle "/publishedrequests" (Plain (SearchHandler cfg));
           Handle "/staticlist" (Plain (SearchHandler cfg));
           Handle "/publications" (Plain (SearchHandler cfg));
           Handle "/topicspecificmethodology" (Plain (SearchHandler cfg));
           Handle "/timeseriestool" (Plain (SearchHandler cfg))]
        ++ [Handle "/search" (Plain (SearchHandler cfg))])
  ++ when (RelCalEnabled cfg)
       ((if UseNewReleaseCalendar cfg
         then [Handle (RelCalRoutePrefix cfg +:+ "/releasecalendar")
                 (relcal_Handler (RelCalHandler cfg));
               Handle (RelCalRoutePrefix cfg +:+ "/releases/{uri:.*}")
                 (relcal_Handler (RelCalHandler cfg))]
         else [Handle (RelCalRoutePrefix cfg +:+ "/releasecalendar")
                 (relcal_Handler (BabbageHandler cfg));
               Handle (RelCalRoutePrefix cfg +:+ "/releases/{uri:.*}")
                 (relcal_Handler (BabbageHandler cfg))])
        ++ [Handle (RelCalRoutePrefix cfg +:+ "/calendar/releasecalendar")
              (Plain (RelCalHandler cfg))]).

(** Lines 135-139: [router.MatcherFunc(f).Handler(cfg.BabbageHandler)]. *)
Definition fallbackRoutes (cfg : Config) : list Route :=
  [ {| matcher := MatcherFunc hasFileExtMatcher;
       target := ToHandler (Plain (BabbageHandler cfg)) |};
    {| matcher := MatcherFunc isKnownBabbageEndpointMatcher;
       target := ToHandler (Plain (BabbageHandler cfg)) |} ].

(** Lines 142-148: the page-type map and the middleware made from it. *)
Definition pageTypeHandlers (cfg : Config) : gmap string (option H) :=
  let handlers := {[ "dataset_landing_page" := DatasetHandler cfg ]} in
  if NewDatasetRoutingEnabled cfg
  then <["dataset" := PrefixDatasetHandler cfg]> handlers
  else handlers.

Definition allRoutesMiddleware (cfg : Config) : allRoutes_Handler :=
  {| handlers := pageTypeHandlers cfg;
     zebedee := ZebedeeClient cfg;
     byteLimit := ContentTypeByteLimit cfg |}.

(** Lines 150-152: the subrouter under [PathPrefix("/")]. *)
Definition babbageRouter (cfg : Config) : list Route :=
  [ {| matcher := PathPrefix "/";
       target := ToSubrouter [allRoutesMiddleware cfg]
                   [(PathPrefix "/", Plain (BabbageHandler cfg))] |} ].

(** The routes of the router, in registration order. *)
Definition routeTable (cfg : Config) : list Route :=
  staticRoutes cfg ++ fallbackRoutes cfg ++ babbageRouter cfg.

End Model.

Arguments Config : clear implicits.
Arguments HandlerExpr : clear implicits.
Arguments allRoutes_Handler : clear implicits.
Arguments Target : clear implicits.
Arguments Route : clear implicits.

(** *** The two middlewares written in router.go *)

(** The guard of [SecurityHandler]: the paths that get the frame header. *)
Definition setsFrameOptions (path : string) : bool :=
  negb (String.eqb path "/embed")
  && negb (HasPrefix path "/visualisations/")
  && negb (HasPrefix path "/census/maps/").

(** [SecurityHandler(h)]: sets the frame options, then calls [h]. *)
Definition SecurityHandler (h : HandlerFunc) : HandlerFunc :=
  fun w req =>
    let w := if setsFrameOptions (URL_Path req)
             then Header_Set w HTTPHeaderKeyXFrameOptions "SAMEORIGIN"
             else w in
    h w req.

(** [healthcheckHandler(hc)(h)]: [hc] for /health, [h] for anything else. *)
Definition healthcheckHandler (hc : option HandlerFunc) (h : HandlerFunc) : HandlerFunc :=
  fun w req =>
    if String.eqb (URL_Path req) "/health"
    then call hc w req
    else h w req.

(** *** Matching a request against the routes (gorilla/mux) *)

(** Splits a path template at its first variable: the literal part, and the
    rest from the opening brace on. *)
Fixpoint splitVar (tpl : string) : string * option string :=
  match tpl with
  | EmptyString => (EmptyString, None)
  | String c rest =>
      if Ascii.eqb c "{"
      then (EmptyString, Some tpl)
      else let '(lit, v) := splitVar rest in (String c lit, v)
  end.

(** The variables router.go writes, all with the pattern [.*]. *)
Definition greedyVar (v : string) : bool :=
  String.eqb v "{uri:.*}" || String.eqb v "{data:.*}".

(** What [.*] accepts: any run of characters other than a line feed. *)
Fixpoint noLineFeed (s : string) : bool :=
  match s with
  | EmptyString => true
  | String c s' => negb (Ascii.eqb c "010") && noLineFeed s'
  end.

(** A template is in error, and its route never matches, unless it is empty
    or starts with a slash. *)
Definition validTemplate (tpl : string) : bool :=
  String.eqb tpl "" || HasPrefix tpl "/".

(** The braces of a template have to pair up: the nesting depth after [s],
    starting from [level], or [None] once a closing brace has no opening one. *)
Fixpoint braceLevel (level : nat) (s : string) : option nat :=
  match s with
  | EmptyString => Some level
  | String c s' =>
      if Ascii.eqb c "{" then braceLevel (S level) s'
      else if Ascii.eqb c "}"
           then match level with
                | O => None
                | S level' => braceLevel level' s'
                end
           else braceLevel level s'
  end.

(** A template with unbalanced braces is in error too. *)
Definition balancedBraces (tpl : string) : bool :=
  match braceLevel 0 tpl with
  | Some O => true
  | _ => false
  end.

(** [Path(tpl)] against a request path: the whole path has to fit. A
    template without variables is compared as it is; one that ends in a
    single variable "{uri:.*}" or "{data:.*}" takes any rest without a line
    feed. Any other template is compiled by mux into a regexp that is not
    modelled: [templateRegexp m path] tells whether the regexp of matcher [m]
    accepts [path], and is taken as given. *)
Definition matchPath (templateRegexp : Matcher -> string -> bool) (tpl path : string) : bool :=
  validTemplate tpl && balancedBraces tpl &&
  match splitVar tpl with
  | (lit, None) => String.eqb lit path
  | (lit, Some v) =>
      if greedyVar v
      then HasPrefix path lit && noLineFeed (string_drop (String.length lit) path)
      else templateRegexp (Path tpl) path
  end.

(** [PathPrefix(tpl)]: a template without variables has to start the path. *)
Definition matchPathPrefix (templateRegexp : Matcher -> string -> bool) (tpl path : string)
  : bool :=
  validTemplate tpl && balancedBraces tpl &&
  match splitVar tpl with
  | (lit, None) => HasPrefix path lit
  | (_, Some _) => templateRegexp (PathPrefix tpl) path
  end.

(** The result of [New]: the constructors handed to [alice.New], and the
    router they end in. The router is shared by reference, so the routes
    registered after the chain is built are part of it. *)
Record Built {H DC FC ZC : Type} : Type := mkBuilt {
  middleware : list Constructor;
  router : list (Route H DC FC ZC)
}.
Arguments Built : clear implicits.

(** What the router picks for a request. *)
Inductive Resolution {H DC FC ZC : Type} : Type :=
| Direct (e : HandlerExpr H DC FC)
| Through (use : list (allRoutes_Handler H ZC)) (e : HandlerExpr H DC FC)
| NotFound.
Arguments Resolution : clear implicits.

Section Serving.

Context {H DC FC ZC AppConfig : Type}.

(** What mux makes of the templates that are not modelled. *)
Variable templateRegexp : Matcher -> string -> bool.

(** The matcher functions live in another file of the package: they are
    taken as given, as predicates on the request. *)
Variable hasFileExt : Request -> bool.
Variable isKnownBabbageEndpoint : Request -> bool.

(** The field [OtelEnabled] of the process-wide configuration. *)
Variable OtelEnabled : AppConfig -> bool.

(** The middlewares of the collaborators. *)
Variable dprequest_HandlerRequestID : nat -> Constructor.
Variable log_Middleware : Constructor.
Variable redirects_Handler : Constructor.
Variable otelhttp_NewMiddleware : string -> Constructor.

Definition matches (m : Matcher) (req : Request) : bool :=
  match m with
  | Path tpl => matchPath templateRegexp tpl (URL_Path req)
  | MatcherFunc hasFileExtMatcher => hasFileExt req
  | MatcherFunc isKnownBabbageEndpointMatcher => isKnownBabbageEndpoint req
  | PathPrefix tpl => matchPathPrefix templateRegexp tpl (URL_Path req)
  end.

(** The first route of a subrouter that matches. *)
Fixpoint MatchSub (sub : list (Matcher * HandlerExpr H DC FC)) (req : Request)
  : option (HandlerExpr H DC FC) :=
  match sub with
  | [] => None
  | (m, e) :: rest => if matches m req then Some e else MatchSub rest req
  end.

(** [Router.Match]: routes are tried in registration order; a subrouter
    whose own routes all fail lets the search go on. *)
Fixpoint Match (routes : list (Route H DC FC ZC)) (req : Request)
  : Resolution H DC FC ZC :=
  match routes with
  | [] => NotFound
  | r :: rest =>
      if matches (matcher r) req
      then match target r with
           | ToHandler e => Direct e
           | ToSubrouter use sub =>
               match MatchSub sub req with
               | Some e => Through use e
               | None => Match rest req
               end
           end
      else Match rest req
  end.

(** The route that [Router.Match] records in [RouteMatch.Route]: the
    matcher and the handler of the first route that matches, for a subrouter
    those of its own route. *)
Fixpoint MatchRoute (routes : list (Route H DC FC ZC)) (req : Request)
  : option (Matcher * HandlerExpr H DC FC) :=
  match routes with
  | [] => None
  | r :: rest =>
      if matches (matcher r) req
      then match target r with
           | ToHandler e => Some (matcher r, e)
           | ToSubrouter use sub =>
               match List.find (fun me => matches me.1 req) sub with
               | Some me => Some me
               | None => MatchRoute rest req
               end
           end
      else MatchRoute rest req
  end.

(** The first route registered by path that matches, if any. *)
Definition firstStatic (cfg : Config H DC FC ZC) (req : Request)
  : option (Route H DC FC ZC) :=
  List.find (fun r => matches (matcher r) req) (staticRoutes cfg).

(** [New(cfg)]. [config_Get] is what the call to [config.Get()] returns; the
    log entries are what construction writes. *)
Definition New (config_Get : GetResult AppConfig) (cfg : Config H DC FC ZC)
  : list LogEntry * result (Built H DC FC ZC) :=
  let middleware :=
    [dprequest_HandlerRequestID 16;
     log_Middleware;
     SecurityHandler;
     healthcheckHandler (HealthCheckHandler cfg);
     redirects_Handler] in
  let '(appConfig, err) := config_Get in
  let logged :=
    match err with
    | Some e => [log_Error "error getting config" e]
    | None => []
    end in
  match appConfig with
  | None => (logged, Panicked nil_dereference)
  | Some appConfig =>
      let middleware :=
        if OtelEnabled appConfig
        then (middleware ++ [otelhttp_NewMiddleware "dp-frontend-router"])%list
        else middleware in
      (logged, Returned {| middleware := middleware; router := routeTable cfg |})
  end.

(** Serving a request with what [New] built: the chain, ending in the
    router's own [ServeHTTP] (taken as given). *)
Definition ServeHTTP (b : Built H DC FC ZC)
  (routerServe : list (Route H DC FC ZC) -> HandlerFunc) : HandlerFunc :=
  alice_Then (middleware b) (routerServe (router b)).

End Serving.

(** *** Flags, one at a time *)

Section Flags.

Context {H DC FC ZC : Type}.

Definition flagValue (f : Flag) (cfg : Config H DC FC ZC) : bool :=
  match f with
  | FAreaProfileEnabled => AreaProfileEnabled cfg
  | FNewDatasetRoutingEnabled => NewDatasetRoutingEnabled cfg
  | FLegacySearchRedirectsEnabled => LegacySearchRedirectsEnabled cfg
  | FDataAggregationPagesEnabled => DataAggregationPagesEnabled cfg
  | FSearchRoutesEnabled => SearchRoutesEnabled cfg
  | FRelCalEnabled => RelCalEnabled cfg
  | FUseNewReleaseCalendar => UseNewReleaseCalendar cfg
  | FCensusAtlasEnabled => CensusAtlasEnabled cfg
  | FDatasetFinderEnabled => DatasetFinderEnabled cfg
  end.

(** [cfg] with its flags read from [fl] and every other field kept. *)
Definition withFlags (fl : Flag -> bool) (cfg : Config H DC FC ZC) : Config H DC FC ZC :=
  {| HealthCheckHandler := HealthCheckHandler cfg;
     AnalyticsHandler := AnalyticsHandler cfg;
     AreaProfileEnabled := fl FAreaProfileEnabled;
     AreaProfileHandler := AreaProfileHandler cfg;
     DownloadHandler := DownloadHandler cfg;
     DatasetHandler := DatasetHandler cfg;
     DatasetClient := DatasetClient cfg;
     NewDatasetRoutingEnabled := fl FNewDatasetRoutingEnabled;
     PrefixDatasetHandler := PrefixDatasetHandler cfg;
     CookieHandler := CookieHandler cfg;
     FilterHandler := FilterHandler cfg;
     FilterFlexHandler := FilterFlexHandler cfg;
     FilterClient := FilterClient cfg;
     FeedbackHandler := FeedbackHandler cfg;
     ContentTypeByteLimit := ContentTypeByteLimit cfg;
     ZebedeeClient := ZebedeeClient cfg;
     LegacySearchRedirectsEnabled := fl FLegacySearchRedirectsEnabled;
     DataAggregationPagesEnabled := fl FDataAggregationPagesEnabled;
     SearchRoutesEnabled := fl FSearchRoutesEnabled;
     SiteDomain := SiteDomain cfg;
     SearchHandler := SearchHandler cfg;
     RelCalHandler := RelCalHandler cfg;
     RelCalEnabled := fl FRelCalEnabled;
     RelCalRoutePrefix := RelCalRoutePrefix cfg;
     UseNewReleaseCalendar := fl FUseNewReleaseCalendar;
     HomepageHandler := HomepageHandler cfg;
     BabbageHandler := BabbageHandler cfg;
     CensusAtlasHandler := CensusAtlasHandler cfg;
     CensusAtlasEnabled := fl FCensusAtlasEnabled;
     DatasetFinderEnabled := fl FDatasetFinderEnabled |}.

(** [cfg] with the one flag [f] set to [b], all others held fixed. *)
Definition setFlag (f : Flag) (b : bool) (cfg : Config H DC FC ZC) : Config H DC FC ZC :=
  withFlags (fun g => if sameFlag g f then b else flagValue g cfg) cfg.

(** The templates of the routes registered by path, in order. *)
Definition patterns (rs : list (Route H DC FC ZC)) : list Matcher :=
  matcher <$> rs.

(** What the routes registered with [Path(tpl)] are bound to, in order. *)
Definition bound (tpl : string) (rs : list (Route H DC FC ZC)) : list (Target H DC FC ZC) :=
  target <$> filter (fun r => matcher r = Path tpl) rs.

End Flags.

End Router.

(** ** analytics/backend_sqs.go *)

Module Analytics.

(** The arguments of the SQS call the backend fills in. *)
Record SendMessageInput : Type := mkSendMessageInput {
  MessageBody : string;
  QueueUrl : string
}.

(** [*sqs.SendMessageOutput]; [MessageId] is a [*string]. *)
Record SendMessageOutput : Type := mkSendMessageOutput {
  MessageId : option string
}.

(** What [SendMessage] returns: an output pointer and an error. *)
Definition SendMessageReply : Type := (option SendMessageOutput * option string)%type.

Record sqsBackend : Type := mksqsBackend {
  queueURL : string
}.

Section Store.

(** [float64] values and instants are opaque here. *)
Context {float64 Time : Type}.

(** A value of the [map[string]interface{}] that [Store] fills. *)
Inductive Value : Type :=
| VString (s : string)
| VFloat (f : float64).

(** The world [Store] acts on: the clock, the messages handed to the SQS
    client so far, and the log. *)
Record World : Type := mkWorld {
  time_Now : Time;
  sent : list SendMessageInput;
  logged : list LogEntry
}.

(** [Time.Format(time.RFC3339)], [json.Marshal], and the answer of the SQS
    client to a message. *)
Variable Format_RFC3339 : Time -> string.
Variable json_Marshal : gmap string Value -> string + string.
Variable sqsClient_SendMessage : SendMessageInput -> SendMessageReply.

Definition log (e : LogEntry) (w : World) : World :=
  {| time_Now := time_Now w; sent := sent w; logged := logged w ++ [e] |}.

Definition send (smi : SendMessageInput) (w : World) : World :=
  {| time_Now := time_Now w; sent := sent w ++ [smi]; logged := logged w |}.

(** The map built at the top of [Store]. *)
Definition eventData (created url term listType gaID gID : string)
  (pageIndex linkIndex pageSize : float64) : gmap string Value :=
  <["created" := VString created]>
  (<["url" := VString url]>
  (<["term" := VString term]>
  (<["listType" := VString listType]>
  (<["gaID" := VString gaID]>
  (<["gID" := VString gID]>
  (<["pageIndex" := VFloat pageIndex]>
  (<["linkIndex" := VFloat linkIndex]>
  (<["pageSize" := VFloat pageSize]> ∅)))))))).

(** [(b *sqsBackend) Store(req, ...)]: the world after the call, and how the
    call ended. *)
Definition Store (b : sqsBackend) (req : Request)
  (url term listType gaID gID : string)
  (pageIndex linkIndex pageSize : float64) (w : World) : World * result unit :=
  let data :=
    eventData (Format_RFC3339 (time_Now w)) url term listType gaID gID
      pageIndex linkIndex pageSize in
  match json_Marshal data with
  | inr err => (log (log_Error "error marshaling json" err) w, Returned tt)
  | inl strJSON =>
      let smi := {| MessageBody := strJSON; QueueUrl := queueURL b |} in
      let w := send smi w in
      match sqsClient_SendMessage smi with
      | (_, Some err) => (log (log_Error "error sending sqs message" err) w, Returned tt)
      | (Some {| MessageId := Some id |}, None) =>
          (log (log_Info "stored analytics data in SQS" [("message_id", id)]) w,
           Returned tt)
      | (_, None) => (w, Panicked nil_dereference)
      end
  end.

End Store.

Arguments Value : clear implicits.
Arguments World : clear implicits.

(** [NewSQSBackend(ctx, queueURL)]. [config_LoadDefaultConfig] is what the
    call to [config.LoadDefaultConfig(ctx)] returns, [sqs_NewFromConfig] makes
    the client from it. The backend comes with its client; [None] is nil. *)
Definition NewSQSBackend {AwsConfig : Type}
  (config_LoadDefaultConfig : AwsConfig + string)
  (sqs_NewFromConfig : AwsConfig -> SendMessageInput -> SendMessageReply)
  (queueURL : string)
  : option (sqsBackend * (SendMessageInput -> SendMessageReply)) * option string :=
  match config_LoadDefaultConfig with
  | inr err => (None, Some err)
  | inl cfg => (Some ({| queueURL := queueURL |}, sqs_NewFromConfig cfg), None)
  end.

End Analytics.

(** ** Concrete values the statements below are tried on *)

Module Samples.

Import Router.

(** Handlers are told apart by name; the clients carry nothing. *)
Definition handlers_on (relcal newcal atlas finder legacy agg search dsr : bool)
  (prefix : string) : Config string unit unit unit :=
  {| HealthCheckHandler := Some (fun w _ => Returned (Header_Set w "Health" "OK"));
     AnalyticsHandler := Some "analytics";
     AreaProfileEnabled := false;
     AreaProfileHandler := Some "areaprofile";
     DownloadHandler := Some "download";
     DatasetHandler := Some "dataset";
     DatasetClient := tt;
     NewDatasetRoutingEnabled := dsr;
     PrefixDatasetHandler := Some "prefixdataset";
     CookieHandler := Some "cookie";
     FilterHandler := Some "filter";
     FilterFlexHandler := Some "filterflex";
     FilterClient := tt;
     FeedbackHandler := Some "feedback";
     ContentTypeByteLimit := 5000000;
     ZebedeeClient := tt;
     LegacySearchRedirectsEnabled := legacy;
     DataAggregationPagesEnabled := agg;
     SearchRoutesEnabled := search;
     SiteDomain := "ons.gov.uk";
     SearchHandler := Some "search";
     RelCalHandler := Some "relcal";
     RelCalEnabled := relcal;
     RelCalRoutePrefix := prefix;
     UseNewReleaseCalendar := newcal;
     HomepageHandler := Some "homepage";
     BabbageHandler := Some "babbage";
     CensusAtlasHandler := Some "censusatlas";
     CensusAtlasEnabled := atlas;
     DatasetFinderEnabled := finder |}.

(** Release calendar on, every other flag off. *)
Definition relcalConfig (newcal : bool) : Config string unit unit unit :=
  handlers_on true newcal false false false false false false "".

(** Every flag off. *)
Definition plainConfig : Config string unit unit unit :=
  handlers_on false false false false false false false false "".

(** No handler supplied at all. *)
Definition nilConfig : Config string unit unit unit :=
  {| HealthCheckHandler := None;
     AnalyticsHandler := None;
     AreaProfileEnabled := false;
     AreaProfileHandler := None;
     DownloadHandler := None;
     DatasetHandler := None;
     DatasetClient := tt;
     NewDatasetRoutingEnabled := false;
     PrefixDatasetHandler := None;
     CookieHandler := None;
     FilterHandler := None;
     FilterFlexHandler := None;
     FilterClient := tt;
     FeedbackHandler := None;
     ContentTypeByteLimit := 0;
     ZebedeeClient := tt;
     LegacySearchRedirectsEnabled := false;
     DataAggregationPagesEnabled := false;
     SearchRoutesEnabled := false;
     SiteDomain := "";
     SearchHandler := None;
     RelCalHandler := None;
     RelCalEnabled := false;
     RelCalRoutePrefix := "";
     UseNewReleaseCalendar := false;
     HomepageHandler := None;
     BabbageHandler := None;
     CensusAtlasHandler := None;
     CensusAtlasEnabled := false;
     DatasetFinderEnabled := false |}.

(** Modelled from the spec: the matcher function [hasFileExtMatcher], which
    is not part of the files at hand. The spec has it hold when the final
    segment of the path carries a file-extension-like suffix; here, when that
    segment contains a dot. [seen] tells whether the segment read so far
    has one. *)
Fixpoint finalSegmentHasDot (seen : bool) (path : string) : bool :=
  match path with
  | EmptyString => seen
  | String c rest =>
      if Ascii.eqb c "/" then finalSegmentHasDot false rest
      else if Ascii.eqb c "." then finalSegmentHasDot true rest
      else finalSegmentHasDot seen rest
  end.

Definition hasFileExt (req : Request) : bool :=
  finalSegmentHasDot false (URL_Path req).

(** No endpoint is taken to be a known legacy one. *)
Definition isKnownBabbageEndpoint (req : Request) : bool := false.

(** A collaborator's middleware that only passes the request on. *)
Definition passOn : Constructor := fun h => h.

(** A router that answers every request by noting it was reached. *)
Definition reached : HandlerFunc :=
  fun w _ => Returned {| Header := Header w; Written := Written w ++ ["router"] |}.

Definition get (path : string) : Request := {| Method := "GET"; URL_Path := path |}.

Definition blank : ResponseWriter := {| Header := ∅; Written := [] |}.

(** No template outside the modelled ones is taken to match. *)
Definition templateRegexp (m : Matcher) (path : string) : bool := false.

(** A process-wide configuration: the bind address of config/config.go and
    the tracing switch. *)
Record AppConfig : Type := mkAppConfig {
  BindAddr : string;
  OtelEnabled : bool
}.

Definition tracing (on : bool) : AppConfig :=
  {| BindAddr := ":20000"; OtelEnabled := on |}.

(** [New] with the sample collaborators. *)
Definition New (config_Get : GetResult AppConfig) (cfg : Config string unit unit unit)
  : list LogEntry * result (Built string unit unit unit) :=
  Router.New OtelEnabled (fun _ => passOn) passOn passOn (fun _ => passOn) config_Get cfg.

End Samples.

(** ** The wording of the specification, to compare the code with *)

Module Spec.

(** The allow-list of embeddable paths as the specification words it: the
    exact path /embed, anything under /visualisations/, anything under
    /census/maps/. *)
Definition frameExempt (path : string) : Prop :=
  path = "/embed"
  \/ (exists rest, path = "/visualisations/" +:+ rest)
  \/ (exists rest, path = "/census/maps/" +:+ rest).

(** Some handler of the configuration is nil. *)
Definition missingHandler {H DC FC ZC : Type} (cfg : Router.Config H DC FC ZC) : Prop :=
  Router.HealthCheckHandler cfg = None
  \/ Router.HomepageHandler cfg = None
  \/ Router.BabbageHandler cfg = None.

(** Enabling the flag [f], all others held fixed, strictly adds routes and
    neither removes nor reorders a route that was there with [f] disabled. *)
Definition flagMonotone {H DC FC ZC : Type} (f : Router.Flag) (cfg : Router.Config H DC FC ZC)
  : Prop :=
  length (Router.routeTable (Router.setFlag f false cfg))
    < length (Router.routeTable (Router.setFlag f true cfg))
  /\ Router.routeTable (Router.setFlag f false cfg)
       `sublist_of` Router.routeTable (Router.setFlag f true cfg).

(** The alias {prefix}/calendar/releasecalendar is bound to the legacy
    rendering backend handler. *)
Definition aliasBoundToLegacy {H DC FC ZC : Type} (cfg : Router.Config H DC FC ZC) : Prop :=
  Router.bound (Router.RelCalRoutePrefix cfg +:+ "/calendar/releasecalendar")
    (Router.routeTable cfg)
  = [Router.ToHandler (Router.Plain (Router.BabbageHandler cfg))].

End Spec.

(** * Properties *)

(** ** Strings *)

Lemma HasPrefix_append (p r : string) : HasPrefix (p +:+ r) p = true.
Proof.
  induction p as [|c p IH]; simpl; [reflexivity|].
  rewrite Ascii.eqb_refl. exact IH.
Qed.

Lemma HasPrefix_true (s p : string) :
  HasPrefix s p = true -> exists r, s = p +:+ r.
Proof.
  revert s. induction p as [|c p IH]; intros s Hs; simpl in *.
  - exists s. reflexivity.
  - destruct s as [|d s]; [discriminate|].
    destruct (Ascii.eqb_spec d c) as [->|]; [|discriminate].
    destruct (IH _ Hs) as [r ->]. exists r. reflexivity.
Qed.

Lemma HasPrefix_spec (s p : string) :
  HasPrefix s p = true <-> exists r, s = p +:+ r.
Proof.
  split; [apply HasPrefix_true|].
  intros [r ->]. apply HasPrefix_append.
Qed.

Lemma string_drop_append (p s : string) :
  string_drop (String.length p) (p +:+ s) = s.
Proof. induction p as [|c p IH]; simpl; [destruct s|]; auto. Qed.

Lemma length_append (p s : string) :
  String.length (p +:+ s) = String.length p + String.length s.
Proof. induction p as [|c p IH]; simpl; auto. Qed.

(** The last [length s] characters of [p +:+ s] are [s]. *)
Lemma suffix_of_append (p s : string) :
  string_drop (String.length (p +:+ s) - String.length s) (p +:+ s) = s.
Proof.
  rewrite length_append.
  replace (String.length p + String.length s - String.length s) with (String.length p) by lia.
  apply string_drop_append.
Qed.

Lemma append_inj_r (p a b : string) : p +:+ a = p +:+ b -> a = b.
Proof. induction p as [|c p IH]; simpl; intros Heq; [|injection Heq]; auto. Qed.

(** ** The middlewares of router.go *)

Import Router.

(** The guard of [SecurityHandler] is the complement of the allow-list. *)
Lemma setsFrameOptions_exempt (path : string) :
  setsFrameOptions path = false <-> Spec.frameExempt path.
Proof.
  unfold setsFrameOptions, Spec.frameExempt.
  rewrite !andb_false_iff, !negb_false_iff, String.eqb_eq, !HasPrefix_spec.
  tauto.
Qed.

Lemma Header_Set_lookup (w : ResponseWriter) (key value : string) :
  Header (Header_Set w key value) !! key = Some [value].
Proof. unfold Header_Set; simpl. apply lookup_insert_eq. Qed.

Lemma Header_Set_other (w : ResponseWriter) (key value other : string) :
  key <> other -> Header (Header_Set w key value) !! other = Header w !! other.
Proof. intros Hne. unfold Header_Set; simpl. by apply lookup_insert_ne. Qed.

(** C5: for every request, [SecurityHandler] hands the downstream handler a
    response whose X-Frame-Options header is already SAMEORIGIN (every other
    header as it was), except when the path is exactly /embed or lies under
    /visualisations/ or /census/maps/: then the downstream handler gets the
    response untouched. *)
Theorem SecurityHandler_frame_options (h : HandlerFunc) (w : ResponseWriter) (req : Request) :
  (Spec.frameExempt (URL_Path req) -> SecurityHandler h w req = h w req)
  /\ (~ Spec.frameExempt (URL_Path req) ->
      exists w',
        SecurityHandler h w req = h w' req
        /\ Header w' !! "X-Frame-Options" = Some ["SAMEORIGIN"]
        /\ (forall k, k <> "X-Frame-Options" -> Header w' !! k = Header w !! k)
        /\ Written w' = Written w).
Proof.
  unfold SecurityHandler. split.
  - intros Hex. apply setsFrameOptions_exempt in Hex. by rewrite Hex.
  - intros Hex. rewrite <- setsFrameOptions_exempt in Hex.
    apply not_false_is_true in Hex. rewrite Hex.
    exists (Header_Set w HTTPHeaderKeyXFrameOptions "SAMEORIGIN").
    split; [reflexivity|]. split; [apply Header_Set_lookup|].
    split; [|reflexivity].
    intros k Hk. apply Header_Set_other. unfold HTTPHeaderKeyXFrameOptions. congruence.
Qed.

Lemma SecurityHandler_frame_options_witness :
  SecurityHandler Samples.reached Samples.blank (Samples.get "/visualisations/chart")
    = Samples.reached Samples.blank (Samples.get "/visualisations/chart")
  /\ exists w',
       SecurityHandler Samples.reached Samples.blank (Samples.get "/economy")
         = Samples.reached w' (Samples.get "/economy")
       /\ Header w' !! "X-Frame-Options" = Some ["SAMEORIGIN"].
Proof.
  split.
  - apply (proj1 (SecurityHandler_frame_options Samples.reached Samples.blank
                    (Samples.get "/visualisations/chart"))).
    right; left. exists "chart". reflexivity.
  - destruct (proj2 (SecurityHandler_frame_options Samples.reached Samples.blank
                       (Samples.get "/economy"))) as (w' & Hrun & Hhdr & _).
    + intros [Hembed | [[r Hr] | [r Hr]]]; simpl in *; discriminate.
    + exists w'. split; assumption.
Defined.

(** C10: the allow-list is exact for /embed and needs the trailing slash
    for the two others: /visualisations, /census/maps and every path below
    /embed/ get the header. *)
Theorem SecurityHandler_allow_list_edges (h : HandlerFunc) (w : ResponseWriter) (req : Request) :
  URL_Path req = "/visualisations"
  \/ URL_Path req = "/census/maps"
  \/ (exists rest, URL_Path req = "/embed/" +:+ rest) ->
  SecurityHandler h w req = h (Header_Set w "X-Frame-Options" "SAMEORIGIN") req
  /\ Header (Header_Set w "X-Frame-Options" "SAMEORIGIN") !! "X-Frame-Options"
     = Some ["SAMEORIGIN"].
Proof.
  intros Hpath. split; [|apply Header_Set_lookup].
  unfold SecurityHandler.
  assert (setsFrameOptions (URL_Path req) = true) as ->; [|reflexivity].
  destruct Hpath as [-> | [-> | [rest ->]]]; reflexivity.
Qed.

Lemma SecurityHandler_allow_list_edges_witness :
  SecurityHandler Samples.reached Samples.blank (Samples.get "/embed/x")
  = Samples.reached (Header_Set Samples.blank "X-Frame-Options" "SAMEORIGIN")
      (Samples.get "/embed/x").
Proof.
  apply (SecurityHandler_allow_list_edges Samples.reached Samples.blank (Samples.get "/embed/x")).
  right; right. exists "x". reflexivity.
Defined.

(** ** Building the chain *)

Section Chain.

Context {H DC FC ZC AppConfig : Type}.
Variable OtelEnabled : AppConfig -> bool.
Variable dprequest_HandlerRequestID : nat -> Constructor.
Variables log_Middleware redirects_Handler : Constructor.
Variable otelhttp_NewMiddleware : string -> Constructor.

Abbreviation New := (@Router.New H DC FC ZC AppConfig OtelEnabled
                       dprequest_HandlerRequestID log_Middleware
                       redirects_Handler otelhttp_NewMiddleware).

(** With a configuration value at hand, [New] returns: what it logged, the
    five fixed constructors, the tracing one if asked for, and the routes. *)
Lemma New_returns (appConfig : AppConfig) (err : option string) (cfg : Config H DC FC ZC) :
  New (Some appConfig, err) cfg =
  (match err with Some e => [log_Error "error getting config" e] | None => [] end,
   Returned
     {| middleware :=
          [dprequest_HandlerRequestID 16; log_Middleware; SecurityHandler;
           healthcheckHandler (HealthCheckHandler cfg); redirects_Handler]
          ++ (if OtelEnabled appConfig
              then [otelhttp_NewMiddleware "dp-frontend-router"] else []);
        router := routeTable cfg |}).
Proof.
  unfold Router.New. destruct (OtelEnabled appConfig); [reflexivity|].
  by rewrite app_nil_r.
Qed.

Lemma New_inv (config_Get : GetResult AppConfig) (cfg : Config H DC FC ZC) (b : Built H DC FC ZC) :
  (New config_Get cfg).2 = Returned b ->
  exists tracing,
    middleware b =
      [dprequest_HandlerRequestID 16; log_Middleware; SecurityHandler;
       healthcheckHandler (HealthCheckHandler cfg); redirects_Handler] ++ tracing
    /\ router b = routeTable cfg.
Proof.
  destruct config_Get as [[appConfig|] err]; [|discriminate].
  rewrite New_returns. simpl. intros [= <-]. simpl. eauto.
Qed.

(** C8: for a request whose path is exactly /health, the health-check stage
    answers with the supplied callback and nothing placed after it in the
    chain (redirects, tracing, the router) takes part, whatever the flags of
    the configuration; for any other path the stage is the next handler. *)
Theorem healthcheckHandler_short_circuit
  (config_Get : GetResult AppConfig) (cfg : Config H DC FC ZC) (b : Built H DC FC ZC)
  (hc : HandlerFunc) (w : ResponseWriter) (req : Request) :
  HealthCheckHandler cfg = Some hc ->
  (New config_Get cfg).2 = Returned b ->
  middleware b !! 3 = Some (healthcheckHandler (Some hc))
  /\ (URL_Path req = "/health" ->
      forall routerServe : HandlerFunc,
        alice_Then (drop 3 (middleware b)) routerServe w req = hc w req)
  /\ (URL_Path req <> "/health" ->
      forall next : HandlerFunc, healthcheckHandler (Some hc) next w req = next w req).
Proof.
  intros Hhc Hnew. destruct (New_inv _ _ _ Hnew) as (tracing & -> & _).
  rewrite Hhc. split; [reflexivity|]. split.
  - intros Hpath routerServe. simpl. unfold healthcheckHandler.
    rewrite Hpath. reflexivity.
  - intros Hpath next. unfold healthcheckHandler.
    apply String.eqb_neq in Hpath. by rewrite Hpath.
Qed.

(** C2, as the code has it: [New] checks none of its handlers. Whenever
    [config.Get()] hands back a configuration value, construction runs to
    its end for every [Config], nil handlers included: a load error is logged
    and nothing more, and the routes are all registered. A nil handler stays
    where it was put and shows when a request gets there: / resolves to the
    homepage handler as given, and a nil health-check callback panics on
    /health. *)
Theorem New_does_not_validate
  (appConfig : AppConfig) (err : option string) (cfg : Config H DC FC ZC) :
  exists b,
    New (Some appConfig, err) cfg =
      (match err with Some e => [log_Error "error getting config" e] | None => [] end,
       Returned b)
    /\ router b = routeTable cfg
    /\ (forall templateRegexp hasFileExt isKnownBabbageEndpoint method,
          Match templateRegexp hasFileExt isKnownBabbageEndpoint (router b)
            {| Method := method; URL_Path := "/" |}
          = Direct (Plain (HomepageHandler cfg)))
    /\ (forall routerServe w req,
          URL_Path req = "/health" ->
          alice_Then (drop 3 (middleware b)) routerServe w req
          = call (HealthCheckHandler cfg) w req).
Proof.
  eexists. split; [apply New_returns|]. simpl.
  split; [reflexivity|]. split; [reflexivity|].
  intros routerServe w req Hpath. unfold healthcheckHandler. by rewrite Hpath.
Qed.

(** Whatever is looked up, the routes are those of [cfg]. *)
Lemma New_routes_independent_of_lookup
  (get1 get2 : GetResult AppConfig) (cfg : Config H DC FC ZC) (b1 b2 : Built H DC FC ZC) :
  (New get1 cfg).2 = Returned b1 ->
  (New get2 cfg).2 = Returned b2 ->
  router b1 = router b2.
Proof.
  intros H1 H2.
  destruct (New_inv _ _ _ H1) as (? & _ & ->).
  destruct (New_inv _ _ _ H2) as (? & _ & ->). reflexivity.
Qed.

(** C3, as the code has it: the routes, and so what the router resolves
    for any request, are a function of [Config] alone: two calls of [New]
    with the same [Config] yield the same routes whatever [config.Get()]
    returned to each. The chain also depends on that lookup, through the
    field [OtelEnabled] and nothing else: the two calls yield the same chain
    exactly when the configurations looked up agree on [OtelEnabled],
    whatever else they hold and whatever error came with them. *)
Theorem New_determined_by_config_and_lookup
  (appConfig1 appConfig2 : AppConfig) (err1 err2 : option string)
  (cfg : Config H DC FC ZC) (b1 b2 : Built H DC FC ZC) :
  (New (Some appConfig1, err1) cfg).2 = Returned b1 ->
  (New (Some appConfig2, err2) cfg).2 = Returned b2 ->
  router b1 = router b2
  /\ (forall templateRegexp hasFileExt isKnownBabbageEndpoint req,
        Match templateRegexp hasFileExt isKnownBabbageEndpoint (router b1) req
        = Match templateRegexp hasFileExt isKnownBabbageEndpoint (router b2) req)
  /\ (OtelEnabled appConfig1 = OtelEnabled appConfig2 <-> middleware b1 = middleware b2)
  /\ (OtelEnabled appConfig1 = OtelEnabled appConfig2 -> b1 = b2).
Proof.
  intros H1 H2.
  pose proof (New_routes_independent_of_lookup _ _ _ _ _ H1 H2) as Hroutes.
  rewrite New_returns in H1, H2. simpl in H1, H2.
  injection H1 as <-. injection H2 as <-. simpl in *.
  split; [reflexivity|]. split; [reflexivity|]. split; [split|].
  - intros ->. reflexivity.
  - destruct (OtelEnabled appConfig1), (OtelEnabled appConfig2);
      try reflexivity; intros [=].
  - intros ->. reflexivity.
Qed.

End Chain.

Lemma healthcheckHandler_short_circuit_witness :
  alice_Then
    (drop 3 [Samples.passOn; Samples.passOn; SecurityHandler;
             healthcheckHandler (HealthCheckHandler Samples.plainConfig);
             Samples.passOn; Samples.passOn])
    Samples.reached Samples.blank (Samples.get "/health")
  = Returned (Header_Set Samples.blank "Health" "OK").
Proof.
  pose proof (healthcheckHandler_short_circuit Samples.OtelEnabled
                (fun _ => Samples.passOn) Samples.passOn Samples.passOn
                (fun _ => Samples.passOn)
                (Some (Samples.tracing true), None) Samples.plainConfig
                {| middleware :=
                     [Samples.passOn; Samples.passOn; SecurityHandler;
                      healthcheckHandler (HealthCheckHandler Samples.plainConfig);
                      Samples.passOn; Samples.passOn];
                   router := routeTable Samples.plainConfig |}
                (fun w _ => Returned (Header_Set w "Health" "OK"))
                Samples.blank (Samples.get "/health")
                eq_refl eq_refl) as (_ & Hhealth & _).
  exact (Hhealth eq_refl Samples.reached).
Defined.

Lemma New_determined_by_config_and_lookup_witness :
  {| middleware := [Samples.passOn; Samples.passOn; SecurityHandler;
                    healthcheckHandler (HealthCheckHandler Samples.plainConfig);
                    Samples.passOn; Samples.passOn];
     router := routeTable Samples.plainConfig |}
  = {| middleware := [Samples.passOn; Samples.passOn; SecurityHandler;
                      healthcheckHandler (HealthCheckHandler Samples.plainConfig);
                      Samples.passOn; Samples.passOn];
       router := routeTable Samples.plainConfig |}
  /\ Samples.BindAddr {| Samples.BindAddr := ":8080"; Samples.OtelEnabled := true |}
     <> Samples.BindAddr (Samples.tracing true).
Proof.
  split; [|discriminate].
  refine (proj2 (proj2 (proj2
    (New_determined_by_config_and_lookup Samples.OtelEnabled
       (fun _ => Samples.passOn) Samples.passOn Samples.passOn (fun _ => Samples.passOn)
       {| Samples.BindAddr := ":8080"; Samples.OtelEnabled := true |} (Samples.tracing true)
       None (Some "bad environment") Samples.plainConfig _ _ eq_refl eq_refl))) eq_refl).
Defined.

(** C2, counterexample: with every handler nil and a failed configuration
    load, [New] still returns a chain and a router; the load error is a log
    entry; the missing health-check callback is a panic of the request for
    /health. *)
Lemma New_nil_handlers_not_fatal :
  Spec.missingHandler Samples.nilConfig
  /\ exists b,
       Samples.New (Some (Samples.tracing false), Some "bad environment") Samples.nilConfig
       = ([log_Error "error getting config" "bad environment"], Returned b)
       /\ ServeHTTP b (fun _ => Samples.reached) Samples.blank (Samples.get "/health")
          = Panicked nil_dereference.
Proof.
  split; [left; reflexivity|].
  eexists. split; reflexivity.
Qed.

(** C3, counterexample: the same [Config], two states of the process-wide
    configuration, two different chains. *)
Lemma New_depends_on_global_lookup :
  (Samples.New (Some (Samples.tracing true), None) Samples.plainConfig).2
  <> (Samples.New (Some (Samples.tracing false), None) Samples.plainConfig).2.
Proof.
  unfold Samples.New. rewrite !New_returns. simpl.
  intros [=].
Qed.

(** ** The routes *)

Section Routes.

Context {H DC FC ZC : Type}.

Implicit Types (cfg : Config H DC FC ZC) (rs : list (Route H DC FC ZC)).

Lemma bound_app tpl rs1 rs2 : bound tpl (rs1 ++ rs2) = bound tpl rs1 ++ bound tpl rs2.
Proof. unfold bound. by rewrite filter_app, fmap_app. Qed.

Lemma bound_nil tpl : bound tpl ([] : list (Route H DC FC ZC)) = [].
Proof. reflexivity. Qed.

Lemma bound_when tpl (c : bool) rs :
  bound tpl (when c rs) = if c then bound tpl rs else [].
Proof. by destruct c. Qed.

Lemma bound_if tpl (c : bool) rs1 rs2 :
  bound tpl (if c then rs1 else rs2) = if c then bound tpl rs1 else bound tpl rs2.
Proof. by destruct c. Qed.

Lemma bound_Handle_eq tpl e rs :
  bound tpl (Handle tpl e :: rs) = ToHandler e :: bound tpl rs.
Proof. unfold bound. by rewrite filter_cons_True. Qed.

Lemma bound_Handle_ne tpl t e rs :
  t <> tpl -> bound tpl (Handle t e :: rs) = bound tpl rs.
Proof.
  intros Hne. unfold bound. rewrite filter_cons_False; [done|].
  simpl. congruence.
Qed.

Lemma bound_other tpl m tg rs :
  (forall t, m <> Path t) ->
  bound tpl ({| matcher := m; target := tg |} :: rs) = bound tpl rs.
Proof.
  intros Hne. unfold bound. rewrite filter_cons_False; [done|]. simpl. apply Hne.
Qed.

End Routes.

(** A literal template is not [p +:+ suffix] when its own end differs from
    [suffix]; two templates on one prefix differ when their ends do. *)
Ltac template_ne :=
  let Heq := fresh "Heq" in
  intros Heq;
  first
    [ discriminate Heq
    | apply append_inj_r in Heq; discriminate Heq
    | match type of Heq with
      | _ = _ +:+ ?suffix =>
          apply (f_equal (fun x => string_drop (String.length x - String.length suffix) x)) in Heq;
          rewrite suffix_of_append in Heq; vm_compute in Heq; discriminate Heq
      | _ +:+ ?suffix = _ =>
          apply (f_equal (fun x => string_drop (String.length x - String.length suffix) x)) in Heq;
          rewrite suffix_of_append in Heq; vm_compute in Heq; discriminate Heq
      end ].

(** Walks the registrations and keeps what is bound to the template. *)
Ltac bound_walk :=
  unfold routeTable, staticRoutes, fallbackRoutes, babbageRouter;
  repeat first
    [ rewrite bound_app
    | rewrite bound_when
    | rewrite bound_if
    | rewrite bound_nil
    | rewrite bound_Handle_eq
    | rewrite bound_Handle_ne by template_ne
    | rewrite bound_other by (intros ?; discriminate) ].

Section RouteTable.

Context {H DC FC ZC : Type}.

Implicit Types (cfg : Config H DC FC ZC).

(** C1, as the code has it: with release calendar enabled, the alias
    {prefix}/calendar/releasecalendar is bound to the release-calendar
    handler [RelCalHandler] as given, whatever the second flag; that flag
    picks, for {prefix}/releasecalendar and {prefix}/releases/*, the
    release-calendar handler or the legacy one, each behind [relcal.Handler]. *)
Theorem relcal_routes_bound cfg :
  RelCalEnabled cfg = true ->
  bound (RelCalRoutePrefix cfg +:+ "/calendar/releasecalendar") (routeTable cfg)
    = [ToHandler (Plain (RelCalHandler cfg))]
  /\ bound (RelCalRoutePrefix cfg +:+ "/releasecalendar") (routeTable cfg)
     = [ToHandler (relcal_Handler (if UseNewReleaseCalendar cfg
                                   then RelCalHandler cfg else BabbageHandler cfg))]
  /\ bound (RelCalRoutePrefix cfg +:+ "/releases/{uri:.*}") (routeTable cfg)
     = [ToHandler (relcal_Handler (if UseNewReleaseCalendar cfg
                                   then RelCalHandler cfg else BabbageHandler cfg))].
Proof.
  intros Hrelcal. repeat split; bound_walk; rewrite Hrelcal;
    destruct (CensusAtlasEnabled cfg), (DatasetFinderEnabled cfg),
      (LegacySearchRedirectsEnabled cfg), (SearchRoutesEnabled cfg),
      (DataAggregationPagesEnabled cfg), (UseNewReleaseCalendar cfg); reflexivity.
Qed.

End RouteTable.

Lemma relcal_routes_bound_witness :
  bound "/calendar/releasecalendar" (routeTable (Samples.relcalConfig false))
  = [ToHandler (Plain (Some "relcal"))].
Proof.
  apply (proj1 (relcal_routes_bound (Samples.relcalConfig false) eq_refl)).
Defined.

(** C1, counterexample: release calendar enabled, new release calendar
    off; the alias is bound to the release-calendar handler, which is not
    the legacy one. *)
Lemma relcal_alias_not_legacy :
  RelCalEnabled (Samples.relcalConfig false) = true
  /\ bound "/calendar/releasecalendar" (routeTable (Samples.relcalConfig false))
     = [ToHandler (Plain (Some "relcal"))]
  /\ BabbageHandler (Samples.relcalConfig false) = Some "babbage"
  /\ ~ Spec.aliasBoundToLegacy (Samples.relcalConfig false).
Proof.
  split; [reflexivity|]. split; [by vm_compute|]. split; [reflexivity|].
  unfold Spec.aliasBoundToLegacy. vm_compute. intros [=].
Qed.

(** ** Dispatch *)

Section Dispatch.

Context {H DC FC ZC : Type}.
Variable templateRegexp : Matcher -> string -> bool.
Variables hasFileExt isKnownBabbageEndpoint : Request -> bool.

Implicit Types (cfg : Config H DC FC ZC) (rs : list (Route H DC FC ZC)) (req : Request).

Abbreviation Match' :=
  (@Match H DC FC ZC templateRegexp hasFileExt isKnownBabbageEndpoint).
Abbreviation matches' := (matches templateRegexp hasFileExt isKnownBabbageEndpoint).

Lemma Match_app rs1 rs2 req :
  Match' (rs1 ++ rs2) req =
  match Match' rs1 req with
  | NotFound => Match' rs2 req
  | res => res
  end.
Proof.
  induction rs1 as [|r rs1 IH]; simpl; [reflexivity|].
  destruct (matches' (matcher r) req); [|exact IH].
  destruct (target r) as [e|use sub]; [reflexivity|].
  destruct (MatchSub _ _ _ sub req); [reflexivity|exact IH].
Qed.

(** Among routes bound straight to handlers, the router picks the first
    whose matcher holds. *)
Lemma Match_find rs req :
  Forall (fun r => exists e, target r = ToHandler e) rs ->
  match List.find (fun r => matches' (matcher r) req) rs with
  | Some r => exists e, target r = ToHandler e /\ Match' rs req = Direct e
  | None => Match' rs req = NotFound
  end.
Proof.
  induction 1 as [|r rs [e He] _ IH]; simpl; [reflexivity|].
  destruct (matches' (matcher r) req); [|exact IH].
  exists e. rewrite He. split; reflexivity.
Qed.

Lemma staticRoutes_to_handlers cfg :
  Forall (fun r => exists e, target r = ToHandler e) (staticRoutes cfg).
Proof.
  unfold staticRoutes, when.
  destruct (CensusAtlasEnabled cfg), (DatasetFinderEnabled cfg),
    (LegacySearchRedirectsEnabled cfg), (SearchRoutesEnabled cfg),
    (DataAggregationPagesEnabled cfg), (RelCalEnabled cfg),
    (UseNewReleaseCalendar cfg); simpl;
    repeat (constructor; [eexists; reflexivity|]); constructor.
Qed.

(** What is left once no route registered by path has matched. *)
Lemma Match_fallbacks cfg req :
  HasPrefix (URL_Path req) "/" = true ->
  Match' (fallbackRoutes cfg ++ babbageRouter cfg) req =
  if hasFileExt req then Direct (Plain (BabbageHandler cfg))
  else if isKnownBabbageEndpoint req then Direct (Plain (BabbageHandler cfg))
  else Through [allRoutesMiddleware cfg] (Plain (BabbageHandler cfg)).
Proof.
  intros Hslash. unfold fallbackRoutes, babbageRouter.
  cbn [app Match MatchSub matcher target matches].
  change (matchPathPrefix templateRegexp "/" (URL_Path req))
    with (HasPrefix (URL_Path req) "/").
  rewrite Hslash.
  destruct (hasFileExt req); [reflexivity|].
  destruct (isKnownBabbageEndpoint req); reflexivity.
Qed.

Abbreviation MatchRoute' :=
  (@MatchRoute H DC FC ZC templateRegexp hasFileExt isKnownBabbageEndpoint).

Lemma MatchRoute_app rs1 rs2 req :
  MatchRoute' (rs1 ++ rs2) req =
  match MatchRoute' rs1 req with
  | Some me => Some me
  | None => MatchRoute' rs2 req
  end.
Proof.
  induction rs1 as [|r rs1 IH]; simpl; [reflexivity|].
  destruct (matches' (matcher r) req); [|exact IH].
  destruct (target r) as [e|use sub]; [reflexivity|].
  destruct (List.find _ sub); [reflexivity|exact IH].
Qed.

(** The route recorded for a match among routes bound straight to handlers
    is the first whose matcher holds. *)
Lemma MatchRoute_find rs req :
  Forall (fun r => exists e, target r = ToHandler e) rs ->
  match List.find (fun r => matches' (matcher r) req) rs with
  | Some r =>
      exists e, target r = ToHandler e
                /\ Match' rs req = Direct e
                /\ MatchRoute' rs req = Some (matcher r, e)
  | None => Match' rs req = NotFound /\ MatchRoute' rs req = None
  end.
Proof.
  induction 1 as [|r rs [e He] _ IH]; simpl; [split; reflexivity|].
  destruct (matches' (matcher r) req); [|exact IH].
  exists e. rewrite He. repeat split.
Qed.

Lemma MatchRoute_fallbacks cfg req :
  HasPrefix (URL_Path req) "/" = true ->
  MatchRoute' (fallbackRoutes cfg ++ babbageRouter cfg) req =
  if hasFileExt req
  then Some (MatcherFunc hasFileExtMatcher, Plain (BabbageHandler cfg))
  else if isKnownBabbageEndpoint req
       then Some (MatcherFunc isKnownBabbageEndpointMatcher, Plain (BabbageHandler cfg))
       else Some (PathPrefix "/", Plain (BabbageHandler cfg)).
Proof.
  intros Hslash. unfold fallbackRoutes, babbageRouter.
  cbn [app MatchRoute List.find matcher target matches fst].
  change (matchPathPrefix templateRegexp "/" (URL_Path req))
    with (HasPrefix (URL_Path req) "/").
  rewrite Hslash.
  destruct (hasFileExt req); [reflexivity|].
  destruct (isKnownBabbageEndpoint req); reflexivity.
Qed.

(** C7: for every request path (it starts with a slash), the router
    resolves in the order: first route registered by path that matches; else
    the route of the file-extension matcher, to the legacy handler; else the
    route of the known-endpoint matcher, to the legacy handler; else the
    subrouter, whose classification middleware wraps the legacy handler. The
    route recorded for the match tells the tiers apart. In particular a path
    the file-extension matcher accepts, and no route registered by path does,
    goes straight to the legacy handler by the file-extension route, not
    through classification. *)
Theorem Match_precedence cfg req :
  HasPrefix (URL_Path req) "/" = true ->
  match firstStatic templateRegexp hasFileExt isKnownBabbageEndpoint cfg req with
  | Some r =>
      exists e, target r = ToHandler e
                /\ Match' (routeTable cfg) req = Direct e
                /\ MatchRoute' (routeTable cfg) req = Some (matcher r, e)
  | None =>
      if hasFileExt req
      then Match' (routeTable cfg) req = Direct (Plain (BabbageHandler cfg))
           /\ MatchRoute' (routeTable cfg) req
              = Some (MatcherFunc hasFileExtMatcher, Plain (BabbageHandler cfg))
      else if isKnownBabbageEndpoint req
      then Match' (routeTable cfg) req = Direct (Plain (BabbageHandler cfg))
           /\ MatchRoute' (routeTable cfg) req
              = Some (MatcherFunc isKnownBabbageEndpointMatcher,
                      Plain (BabbageHandler cfg))
      else Match' (routeTable cfg) req
           = Through [allRoutesMiddleware cfg] (Plain (BabbageHandler cfg))
           /\ MatchRoute' (routeTable cfg) req
              = Some (PathPrefix "/", Plain (BabbageHandler cfg))
  end
  /\ ((forall r, In r (staticRoutes cfg) -> matches' (matcher r) req = false) ->
      hasFileExt req = true ->
      Match' (routeTable cfg) req = Direct (Plain (BabbageHandler cfg))
      /\ MatchRoute' (routeTable cfg) req
         = Some (MatcherFunc hasFileExtMatcher, Plain (BabbageHandler cfg))).
Proof.
  intros Hslash.
  pose proof (MatchRoute_find (staticRoutes cfg) req (staticRoutes_to_handlers cfg)) as Hfind.
  unfold routeTable, firstStatic. rewrite Match_app, MatchRoute_app. split.
  - destruct (List.find _ (staticRoutes cfg)) as [r|].
    + destruct Hfind as (e & He & -> & ->). eauto.
    + destruct Hfind as [-> ->].
      rewrite Match_fallbacks, MatchRoute_fallbacks by done.
      destruct (hasFileExt req); [split; reflexivity|].
      destruct (isKnownBabbageEndpoint req); split; reflexivity.
  - intros Hnone Hext.
    destruct (List.find _ (staticRoutes cfg)) as [r|] eqn:Hfound.
    + apply List.find_some in Hfound as [Hin Hm].
      rewrite (Hnone r Hin) in Hm. discriminate.
    + destruct Hfind as [-> ->].
      rewrite Match_fallbacks, MatchRoute_fallbacks by done.
      rewrite Hext. split; reflexivity.
Qed.

(** C9: whatever the flags, the exact path /census is registered to the
    homepage handler, the handler of the exact path /, and a request for it
    resolves there; of the census routes only /census/maps... and
    /census/find-a-dataset hang on a flag. *)
Theorem census_bound_to_homepage cfg :
  bound "/census" (routeTable cfg) = [ToHandler (Plain (HomepageHandler cfg))]
  /\ bound "/" (routeTable cfg) = [ToHandler (Plain (HomepageHandler cfg))]
  /\ (forall method,
        Match' (routeTable cfg) {| Method := method; URL_Path := "/census" |}
        = Direct (Plain (HomepageHandler cfg)))
  /\ bound "/census/maps{uri:.*}" (routeTable cfg)
     = (if CensusAtlasEnabled cfg then [ToHandler (Plain (CensusAtlasHandler cfg))] else [])
  /\ bound "/census/find-a-dataset" (routeTable cfg)
     = (if DatasetFinderEnabled cfg then [ToHandler (Plain (SearchHandler cfg))] else []).
Proof.
  split; [|split; [|split; [|split]]].
  3: { intros method. unfold routeTable, staticRoutes.
       destruct (CensusAtlasEnabled cfg); reflexivity. }
  all: bound_walk;
    destruct (CensusAtlasEnabled cfg), (DatasetFinderEnabled cfg),
      (LegacySearchRedirectsEnabled cfg), (SearchRoutesEnabled cfg),
      (DataAggregationPagesEnabled cfg), (RelCalEnabled cfg),
      (UseNewReleaseCalendar cfg); reflexivity.
Qed.

End Dispatch.

Lemma Match_precedence_witness :
  Match Samples.templateRegexp Samples.hasFileExt Samples.isKnownBabbageEndpoint
    (routeTable Samples.plainConfig) (Samples.get "/economy/report.pdf")
  = Direct (Plain (Some "babbage")).
Proof.
  refine (proj1 (proj2 (Match_precedence Samples.templateRegexp Samples.hasFileExt
                          Samples.isKnownBabbageEndpoint Samples.plainConfig
                          (Samples.get "/economy/report.pdf") eq_refl) _ eq_refl)).
  intros r Hin. vm_compute in Hin.
  repeat (destruct Hin as [<- | Hin]; [reflexivity|]). destruct Hin.
Defined.

(** ** One flag at a time *)

(** Block by block: equal blocks, or an empty block against a full one. *)
Ltac blocks_sublist :=
  repeat first
    [ reflexivity
    | apply sublist_nil_l
    | apply sublist_app ].

(** Unfolds the table of [setFlag f b cfg] for a given [f]. *)
Ltac table_of_flag :=
  unfold Spec.flagMonotone, patterns, routeTable, staticRoutes, fallbackRoutes, babbageRouter,
    allRoutesMiddleware, pageTypeHandlers;
  cbn [setFlag withFlags sameFlag flagIndex Nat.eqb flagValue
       HealthCheckHandler AnalyticsHandler AreaProfileEnabled AreaProfileHandler
       DownloadHandler DatasetHandler DatasetClient NewDatasetRoutingEnabled
       PrefixDatasetHandler CookieHandler FilterHandler FilterFlexHandler FilterClient
       FeedbackHandler ContentTypeByteLimit ZebedeeClient LegacySearchRedirectsEnabled
       DataAggregationPagesEnabled SearchRoutesEnabled SiteDomain SearchHandler
       RelCalHandler RelCalEnabled RelCalRoutePrefix UseNewReleaseCalendar
       HomepageHandler BabbageHandler CensusAtlasHandler CensusAtlasEnabled
       DatasetFinderEnabled].

Section OneFlagEffects.

Context {H DC FC ZC : Type}.

Implicit Types (cfg : Config H DC FC ZC).

Lemma length_when (c : bool) (rs : list (Route H DC FC ZC)) :
  length (when c rs) = if c then length rs else 0.
Proof. by destruct c. Qed.

Lemma length_if (c : bool) (rs1 rs2 : list (Route H DC FC ZC)) :
  length (if c then rs1 else rs2) = if c then length rs1 else length rs2.
Proof. by destruct c. Qed.

Lemma fmap_when {B : Type} (g : Route H DC FC ZC -> B) (c : bool)
  (rs : list (Route H DC FC ZC)) :
  g <$> when c rs = if c then g <$> rs else [].
Proof. by destruct c. Qed.

Lemma fmap_if {B : Type} (g : Route H DC FC ZC -> B) (c : bool)
  (rs1 rs2 : list (Route H DC FC ZC)) :
  g <$> (if c then rs1 else rs2) = if c then g <$> rs1 else g <$> rs2.
Proof. by destruct c. Qed.

(** The five flags that guard a block of registrations of their own. *)
Lemma flag_adds_routes (f : Flag) cfg :
  f = FCensusAtlasEnabled \/ f = FDatasetFinderEnabled
  \/ f = FLegacySearchRedirectsEnabled \/ f = FSearchRoutesEnabled
  \/ f = FRelCalEnabled ->
  Spec.flagMonotone f cfg.
Proof.
  intros [-> | [-> | [-> | [-> | ->]]]]; table_of_flag; split.
  all: try (blocks_sublist; fail).
  all: repeat (rewrite ?length_app, ?length_when, ?length_if; cbn [length]).
  all: try lia.
  all: destruct (UseNewReleaseCalendar cfg); lia.
Qed.

Lemma flag_data_aggregation cfg :
  routeTable (setFlag FDataAggregationPagesEnabled false cfg)
    `sublist_of` routeTable (setFlag FDataAggregationPagesEnabled true cfg)
  /\ (length (routeTable (setFlag FDataAggregationPagesEnabled false cfg))
        < length (routeTable (setFlag FDataAggregationPagesEnabled true cfg))
      <-> SearchRoutesEnabled cfg = true).
Proof.
  table_of_flag. split.
  - destruct (SearchRoutesEnabled cfg); blocks_sublist.
  - repeat (rewrite ?length_app, ?length_when, ?length_if; cbn [length]).
    destruct (SearchRoutesEnabled cfg); split; intros; try done; lia.
Qed.

Lemma flag_area_profile cfg :
  routeTable (setFlag FAreaProfileEnabled false cfg)
  = routeTable (setFlag FAreaProfileEnabled true cfg).
Proof. reflexivity. Qed.

Lemma flag_same_patterns (f : Flag) cfg :
  f = FUseNewReleaseCalendar \/ f = FNewDatasetRoutingEnabled ->
  patterns (routeTable (setFlag f false cfg)) = patterns (routeTable (setFlag f true cfg)).
Proof.
  intros [-> | ->]; table_of_flag;
    repeat (rewrite ?fmap_app, ?fmap_when, ?fmap_if; cbn [fmap list_fmap matcher]);
    reflexivity.
Qed.

(** C4, as the code has it: enabling one flag never removes or reorders a
    registered pattern. Five flags (census atlas, dataset finder, legacy
    search redirects, search routes, release calendar) strictly add routes
    and keep each route there was, in order. Data aggregation does so when
    search routes are enabled and changes nothing otherwise. Area profile
    changes nothing. The new-release-calendar and new-dataset-routing flags
    add no route: their tables have the same patterns as before. *)
Theorem flag_effects (f : Flag) cfg :
  patterns (routeTable (setFlag f false cfg))
    `sublist_of` patterns (routeTable (setFlag f true cfg))
  /\ match f with
     | FCensusAtlasEnabled | FDatasetFinderEnabled | FLegacySearchRedirectsEnabled
     | FSearchRoutesEnabled | FRelCalEnabled =>
         Spec.flagMonotone f cfg
     | FDataAggregationPagesEnabled =>
         routeTable (setFlag f false cfg) `sublist_of` routeTable (setFlag f true cfg)
         /\ (length (routeTable (setFlag f false cfg))
               < length (routeTable (setFlag f true cfg))
             <-> SearchRoutesEnabled cfg = true)
     | FAreaProfileEnabled =>
         routeTable (setFlag f false cfg) = routeTable (setFlag f true cfg)
     | FUseNewReleaseCalendar | FNewDatasetRoutingEnabled =>
         patterns (routeTable (setFlag f false cfg))
         = patterns (routeTable (setFlag f true cfg))
     end.
Proof.
  assert (forall g, Spec.flagMonotone g cfg ->
            patterns (routeTable (setFlag g false cfg))
              `sublist_of` patterns (routeTable (setFlag g true cfg))) as Hmono.
  { intros g [_ Hsub]. unfold patterns. by apply fmap_sublist. }
  destruct f.
  - split; [|apply flag_area_profile]. by rewrite flag_area_profile.
  - split; [|apply flag_same_patterns; tauto]. rewrite flag_same_patterns by tauto. done.
  - split; [apply Hmono|]; apply flag_adds_routes; tauto.
  - split; [|apply flag_data_aggregation].
    unfold patterns. apply fmap_sublist, flag_data_aggregation.
  - split; [apply Hmono|]; apply flag_adds_routes; tauto.
  - split; [apply Hmono|]; apply flag_adds_routes; tauto.
  - split; [|apply flag_same_patterns; tauto]. rewrite flag_same_patterns by tauto. done.
  - split; [apply Hmono|]; apply flag_adds_routes; tauto.
  - split; [apply Hmono|]; apply flag_adds_routes; tauto.
Qed.

End OneFlagEffects.

(** C4, counterexample: with release calendar enabled, turning the
    new-release-calendar flag on adds no route, and the route that sent
    /releasecalendar to the legacy handler is gone. *)
Lemma new_release_calendar_flag_not_monotone :
  (Handle "/releasecalendar" (relcal_Handler (Some "babbage"))
     ∈ routeTable (setFlag FUseNewReleaseCalendar false (Samples.relcalConfig false)))
  /\ (Handle "/releasecalendar" (relcal_Handler (Some "babbage"))
      ∉ routeTable (setFlag FUseNewReleaseCalendar true (Samples.relcalConfig false)))
  /\ ~ Spec.flagMonotone FUseNewReleaseCalendar (Samples.relcalConfig false).
Proof.
  split; [|split].
  - apply list_elem_of_In. vm_compute. tauto.
  - intros Hin. apply list_elem_of_In in Hin. vm_compute in Hin.
    repeat (destruct Hin as [Hin | Hin]; [discriminate Hin|]). destruct Hin.
  - intros [Hlt _]. vm_compute in Hlt. lia.
Qed.

(** ** The analytics sink *)

Section StoreContract.

Import Analytics.

Context {float64 Time : Type}.
Variable Format_RFC3339 : Time -> string.
Variable json_Marshal : gmap string (Value float64) -> string + string.
Variable sqsClient_SendMessage : SendMessageInput -> SendMessageReply.

(** C6: [Store] stamps the event with the RFC3339 form of the time of the
    call and marshals it. If marshalling fails, nothing is sent, the error is
    logged and the call returns. Otherwise the JSON goes to the configured
    queue, once; if sending fails, the error is logged and the call returns,
    and if it succeeds the message id is logged. No path sends twice. *)
Theorem Store_fire_and_forget (b : sqsBackend) (req : Request)
  (url term listType gaID gID : string) (pageIndex linkIndex pageSize : float64)
  (w : World Time) :
  let data := eventData (Format_RFC3339 (time_Now w)) url term listType gaID gID
                pageIndex linkIndex pageSize in
  let run := Store Format_RFC3339 json_Marshal sqsClient_SendMessage b req
               url term listType gaID gID pageIndex linkIndex pageSize w in
  data !! "created" = Some (VString (Format_RFC3339 (time_Now w)))
  /\ length (sent run.1) <= S (length (sent w))
  /\ match json_Marshal data with
     | inr err =>
         sent run.1 = sent w
         /\ logged run.1 = logged w ++ [log_Error "error marshaling json" err]
         /\ run.2 = Returned tt
     | inl strJSON =>
         let smi := {| MessageBody := strJSON; QueueUrl := queueURL b |} in
         sent run.1 = sent w ++ [smi]
         /\ match sqsClient_SendMessage smi with
            | (_, Some err) =>
                logged run.1 = logged w ++ [log_Error "error sending sqs message" err]
                /\ run.2 = Returned tt
            | (Some {| MessageId := Some id |}, None) =>
                logged run.1
                = logged w ++ [log_Info "stored analytics data in SQS" [("message_id", id)]]
                /\ run.2 = Returned tt
            | (_, None) => logged run.1 = logged w /\ run.2 = Panicked nil_dereference
            end
     end.
Proof.
  intros data run. subst run. unfold Store. fold data.
  split; [reflexivity|].
  destruct (json_Marshal data) as [strJSON|err]; simpl.
  - destruct (sqsClient_SendMessage _) as [[[[id|]]|] [err|]]; simpl;
      rewrite ?length_app; simpl; (split; [lia|]); repeat split.
  - split; [lia|]. repeat split.
Qed.

End StoreContract.

(** * More of the router and of the analytics backend *)

(** ** Requests for the routes registered by path *)

Section MatchSteps.

Context {H DC FC ZC : Type}.
Variable templateRegexp : Matcher -> string -> bool.
Variables hasFileExt isKnownBabbageEndpoint : Request -> bool.

Lemma Match_cons_miss (r : Route H DC FC ZC) rs req :
  matches templateRegexp hasFileExt isKnownBabbageEndpoint (matcher r) req = false ->
  Match templateRegexp hasFileExt isKnownBabbageEndpoint (r :: rs) req
  = Match templateRegexp hasFileExt isKnownBabbageEndpoint rs req.
Proof. intros Hm. simpl. by rewrite Hm. Qed.

Lemma Match_cons_hit (r : Route H DC FC ZC) rs req e :
  matches templateRegexp hasFileExt isKnownBabbageEndpoint (matcher r) req = true ->
  target r = ToHandler e ->
  Match templateRegexp hasFileExt isKnownBabbageEndpoint (r :: rs) req = Direct e.
Proof. intros Hm Ht. simpl. by rewrite Hm, Ht. Qed.

End MatchSteps.

(** Steps over the routes that do not match, up to the one that does. *)
Ltac first_match :=
  cbn [app when];
  repeat (rewrite Match_cons_miss by reflexivity);
  apply Match_cons_hit; [|reflexivity].

Section MoreDispatch.

Context {H DC FC ZC : Type}.
Variable templateRegexp : Matcher -> string -> bool.
Variables hasFileExt isKnownBabbageEndpoint : Request -> bool.

Implicit Types (cfg : Config H DC FC ZC).

(** X1: whatever the flags and whatever the two fallback matchers say, a
    path under /redir/, /download/, /datasets/, /filters/ or /filter-outputs/,
    and a path that starts with /cookies or /feedback, goes to the handler
    registered for it (the rest of the path may be anything without a line
    feed). A file name under /download/ is thus not taken by the
    file-extension fallback. *)
Theorem unconditional_prefix_routes cfg (method rest : string) :
  noLineFeed rest = true ->
  Match templateRegexp hasFileExt isKnownBabbageEndpoint (routeTable cfg)
      (mkRequest method ("/redir/" +:+ rest))
    = Direct (Plain (AnalyticsHandler cfg))
  /\ Match templateRegexp hasFileExt isKnownBabbageEndpoint (routeTable cfg)
      (mkRequest method ("/download/" +:+ rest))
    = Direct (Plain (DownloadHandler cfg))
  /\ Match templateRegexp hasFileExt isKnownBabbageEndpoint (routeTable cfg)
      (mkRequest method ("/cookies" +:+ rest))
    = Direct (Plain (CookieHandler cfg))
  /\ Match templateRegexp hasFileExt isKnownBabbageEndpoint (routeTable cfg)
      (mkRequest method ("/datasets/" +:+ rest))
    = Direct (Plain (DatasetHandler cfg))
  /\ Match templateRegexp hasFileExt isKnownBabbageEndpoint (routeTable cfg)
      (mkRequest method ("/filters/" +:+ rest))
    = Direct (datasetType_Handler (FilterClient cfg) (DatasetClient cfg)
                 (FilterHandler cfg) (FilterFlexHandler cfg))
  /\ Match templateRegexp hasFileExt isKnownBabbageEndpoint (routeTable cfg)
      (mkRequest method ("/filter-outputs/" +:+ rest))
    = Direct (Plain (FilterHandler cfg))
  /\ Match templateRegexp hasFileExt isKnownBabbageEndpoint (routeTable cfg)
      (mkRequest method ("/feedback" +:+ rest))
    = Direct (Plain (FeedbackHandler cfg)).
Proof.
  intros Hrest. unfold routeTable, staticRoutes.
  destruct (CensusAtlasEnabled cfg), (DatasetFinderEnabled cfg);
    repeat split; first_match; exact Hrest.
Qed.


(** X2: with the census atlas enabled, /census/maps and every path that
    continues it go to the atlas handler. *)
Theorem census_atlas_route cfg (method rest : string) :
  CensusAtlasEnabled cfg = true ->
  noLineFeed rest = true ->
  Match templateRegexp hasFileExt isKnownBabbageEndpoint (routeTable cfg)
      (mkRequest method ("/census/maps" +:+ rest))
    = Direct (Plain (CensusAtlasHandler cfg)).
Proof.
  intros Hatlas Hrest. unfold routeTable, staticRoutes. rewrite Hatlas.
  first_match. exact Hrest.
Qed.

(** X3: with the dataset finder enabled, /census/find-a-dataset goes to the
    search handler, whether or not the census atlas is enabled. *)
Theorem dataset_finder_route cfg (method : string) :
  DatasetFinderEnabled cfg = true ->
  Match templateRegexp hasFileExt isKnownBabbageEndpoint (routeTable cfg)
      (mkRequest method "/census/find-a-dataset")
    = Direct (Plain (SearchHandler cfg)).
Proof.
  intros Hfinder. unfold routeTable, staticRoutes. rewrite Hfinder.
  destruct (CensusAtlasEnabled cfg); first_match; reflexivity.
Qed.

(** X4: with legacy search redirects enabled, /searchdata and
    /searchpublication each go to a redirect from themselves to /search. *)
Theorem legacy_search_redirects cfg (method : string) :
  LegacySearchRedirectsEnabled cfg = true ->
  Match templateRegexp hasFileExt isKnownBabbageEndpoint (routeTable cfg)
      (mkRequest method "/searchdata")
    = Direct (redirects_DynamicRedirectHandler "/searchdata" "/search")
  /\ Match templateRegexp hasFileExt isKnownBabbageEndpoint (routeTable cfg)
      (mkRequest method "/searchpublication")
    = Direct (redirects_DynamicRedirectHandler "/searchpublication" "/search").
Proof.
  intros Hlegacy. unfold routeTable, staticRoutes. rewrite Hlegacy.
  destruct (CensusAtlasEnabled cfg), (DatasetFinderEnabled cfg);
    split; first_match; reflexivity.
Qed.

(** X5: with search routes enabled, /search goes to the search handler,
    whatever the other flags. *)
Theorem search_route cfg (method : string) :
  SearchRoutesEnabled cfg = true ->
  Match templateRegexp hasFileExt isKnownBabbageEndpoint (routeTable cfg)
      (mkRequest method "/search")
    = Direct (Plain (SearchHandler cfg)).
Proof.
  intros Hsearch. unfold routeTable, staticRoutes. rewrite Hsearch.
  destruct (CensusAtlasEnabled cfg), (DatasetFinderEnabled cfg),
    (LegacySearchRedirectsEnabled cfg), (DataAggregationPagesEnabled cfg);
    first_match; reflexivity.
Qed.

(** X6: with search routes and data aggregation pages both enabled, each
    of the eight aggregation paths goes to the search handler. *)
Theorem data_aggregation_routes cfg (method path : string) :
  SearchRoutesEnabled cfg = true ->
  DataAggregationPagesEnabled cfg = true ->
  In path ["/alladhocs"; "/datalist"; "/allmethodologies"; "/publishedrequests";
           "/staticlist"; "/publications"; "/topicspecificmethodology";
           "/timeseriestool"] ->
  Match templateRegexp hasFileExt isKnownBabbageEndpoint (routeTable cfg)
      (mkRequest method path)
    = Direct (Plain (SearchHandler cfg)).
Proof.
  intros Hsearch Hagg Hpath. unfold routeTable, staticRoutes. rewrite Hsearch, Hagg.
  simpl in Hpath.
  destruct (CensusAtlasEnabled cfg), (DatasetFinderEnabled cfg),
    (LegacySearchRedirectsEnabled cfg);
    repeat (destruct Hpath as [<- | Hpath]; [first_match; reflexivity|]);
    destruct Hpath.
Qed.

(** The whole of the search: what the router picks, tier by tier, with no
    condition on the path. *)
Lemma Match_tiers cfg req :
  Match templateRegexp hasFileExt isKnownBabbageEndpoint (routeTable cfg) req =
  match Match templateRegexp hasFileExt isKnownBabbageEndpoint (staticRoutes cfg) req with
  | NotFound =>
      if hasFileExt req then Direct (Plain (BabbageHandler cfg))
      else if isKnownBabbageEndpoint req then Direct (Plain (BabbageHandler cfg))
      else if HasPrefix (URL_Path req) "/"
           then Through [allRoutesMiddleware cfg] (Plain (BabbageHandler cfg))
           else NotFound
  | res => res
  end.
Proof.
  unfold routeTable. rewrite Match_app.
  destruct (Match _ _ _ (staticRoutes cfg) req); try reflexivity.
  unfold fallbackRoutes, babbageRouter.
  cbn [app Match MatchSub matcher target matches].
  change (matchPathPrefix templateRegexp "/" (URL_Path req))
    with (HasPrefix (URL_Path req) "/").
  destruct (hasFileExt req); [reflexivity|].
  destruct (isKnownBabbageEndpoint req); [reflexivity|].
  destruct (HasPrefix (URL_Path req) "/"); reflexivity.
Qed.

Lemma Match_static_not_Through cfg req use e :
  Match templateRegexp hasFileExt isKnownBabbageEndpoint (staticRoutes cfg) req <> Through use e.
Proof.
  pose proof (Match_find templateRegexp hasFileExt isKnownBabbageEndpoint (staticRoutes cfg) req
                (staticRoutes_to_handlers cfg)) as Hfind.
  destruct (List.find _ (staticRoutes cfg)).
  - destruct Hfind as (e' & _ & ->). discriminate.
  - rewrite Hfind. discriminate.
Qed.

(** X8: the router always finds a handler for a path that starts with a
    slash. *)
Theorem Match_total cfg req :
  HasPrefix (URL_Path req) "/" = true ->
  Match templateRegexp hasFileExt isKnownBabbageEndpoint (routeTable cfg) req <> NotFound.
Proof.
  intros Hslash. rewrite Match_tiers, Hslash.
  destruct (Match _ _ _ (staticRoutes cfg) req); try discriminate.
  destruct (hasFileExt req); [discriminate|].
  destruct (isKnownBabbageEndpoint req); discriminate.
Qed.

(** X9: a request reaches the classification middleware only when no route
    registered by path matches and both fallback matchers decline; the
    middleware is then the one built from the configuration, around the
    legacy handler. *)
Theorem classification_is_last_resort cfg req use e :
  Match templateRegexp hasFileExt isKnownBabbageEndpoint (routeTable cfg) req = Through use e ->
  use = [allRoutesMiddleware cfg]
  /\ e = Plain (BabbageHandler cfg)
  /\ hasFileExt req = false
  /\ isKnownBabbageEndpoint req = false
  /\ (forall r, In r (staticRoutes cfg) ->
        matches templateRegexp hasFileExt isKnownBabbageEndpoint (matcher r) req = false).
Proof.
  rewrite Match_tiers.
  pose proof (Match_find templateRegexp hasFileExt isKnownBabbageEndpoint (staticRoutes cfg) req
                (staticRoutes_to_handlers cfg)) as Hfind.
  destruct (List.find _ (staticRoutes cfg)) as [r0|] eqn:Hfound.
  { destruct Hfind as (e' & _ & ->). discriminate. }
  rewrite Hfind.
  destruct (hasFileExt req); [discriminate|].
  destruct (isKnownBabbageEndpoint req); [discriminate|].
  destruct (HasPrefix (URL_Path req) "/"); [|discriminate].
  intros [= <- <-]. repeat split.
  intros r Hin. pose proof (List.find_none _ _ Hfound r Hin) as Hno. exact Hno.
Qed.

(** X10: the page-type map always sends dataset_landing_page to the
    dataset handler, sends dataset to the prefix-dataset handler exactly when
    new dataset routing is enabled, and has no other key. *)
Theorem pageTypeHandlers_lookup cfg :
  pageTypeHandlers cfg !! "dataset_landing_page" = Some (DatasetHandler cfg)
  /\ pageTypeHandlers cfg !! "dataset"
     = (if NewDatasetRoutingEnabled cfg then Some (PrefixDatasetHandler cfg) else None)
  /\ (forall key, key <> "dataset_landing_page" -> key <> "dataset" ->
        pageTypeHandlers cfg !! key = None).
Proof.
  unfold pageTypeHandlers. cbv zeta.
  destruct (NewDatasetRoutingEnabled cfg); (split; [|split]).
  - by rewrite lookup_insert_ne, lookup_singleton_eq.
  - by rewrite lookup_insert_eq.
  - intros key Hk1 Hk2. by rewrite lookup_insert_ne, lookup_singleton_ne.
  - by rewrite lookup_singleton_eq.
  - by rewrite lookup_singleton_ne.
  - intros key Hk1 Hk2. by rewrite lookup_singleton_ne.
Qed.

(** X11: the new-release-calendar flag changes nothing while the release
    calendar is off, and the data-aggregation flag changes nothing while
    search routes are off. *)
Theorem nested_flags_need_their_guard cfg (b : bool) :
  (RelCalEnabled cfg = false ->
   routeTable (setFlag FUseNewReleaseCalendar b cfg) = routeTable cfg)
  /\ (SearchRoutesEnabled cfg = false ->
      routeTable (setFlag FDataAggregationPagesEnabled b cfg) = routeTable cfg).
Proof.
  split; intros Hoff; table_of_flag; rewrite Hoff; reflexivity.
Qed.

End MoreDispatch.

(** Walks the registrations, then tries every setting of the flags. *)
Ltac bound_by_flags cfg :=
  bound_walk;
  destruct (CensusAtlasEnabled cfg), (DatasetFinderEnabled cfg),
    (LegacySearchRedirectsEnabled cfg), (SearchRoutesEnabled cfg),
    (DataAggregationPagesEnabled cfg), (RelCalEnabled cfg),
    (UseNewReleaseCalendar cfg); reflexivity.

Section SearchBound.

Context {H DC FC ZC : Type}.

Implicit Types (cfg : Config H DC FC ZC).

(** X7: the eight aggregation paths are registered, to the search handler,
    exactly when search routes and data aggregation pages are both enabled;
    /search exactly when search routes are; the two legacy paths exactly when
    legacy search redirects are. *)
Theorem search_patterns_bound cfg :
  (forall tpl,
     In tpl ["/alladhocs"; "/datalist"; "/allmethodologies"; "/publishedrequests";
             "/staticlist"; "/publications"; "/topicspecificmethodology";
             "/timeseriestool"] ->
     bound tpl (routeTable cfg)
     = (if SearchRoutesEnabled cfg && DataAggregationPagesEnabled cfg
        then [ToHandler (Plain (SearchHandler cfg))] else []))
  /\ bound "/search" (routeTable cfg)
     = (if SearchRoutesEnabled cfg then [ToHandler (Plain (SearchHandler cfg))] else [])
  /\ bound "/searchdata" (routeTable cfg)
     = (if LegacySearchRedirectsEnabled cfg
        then [ToHandler (redirects_DynamicRedirectHandler "/searchdata" "/search")]
        else [])
  /\ bound "/searchpublication" (routeTable cfg)
     = (if LegacySearchRedirectsEnabled cfg
        then [ToHandler (redirects_DynamicRedirectHandler "/searchpublication" "/search")]
        else []).
Proof.
  split; [|split; [|split]].
  1: { intros tpl Htpl. simpl in Htpl.
       repeat (destruct Htpl as [<- | Htpl]; [bound_by_flags cfg|]).
       destruct Htpl. }
  all: bound_by_flags cfg.
Qed.

End SearchBound.

(** ** All flags at once *)

(** Two matchers differ: by their shape, or as templates do. *)
Ltac matcher_ne :=
  let Heq := fresh "Heq" in
  intros Heq;
  first [ discriminate Heq
        | injection Heq as Heq; revert Heq; template_ne ].

Section AllFlags.

Context {H DC FC ZC : Type}.

Implicit Types (cfg : Config H DC FC ZC).

(** Reading the flags of [cfg] and writing them back gives [cfg]. *)
Lemma withFlags_flagValue cfg : withFlags (fun f => flagValue f cfg) cfg = cfg.
Proof. by destruct cfg. Qed.

Lemma when_patterns_sublist (c1 c2 : bool) (ms : list Matcher) :
  (c1 = true -> c2 = true) ->
  (if c1 then ms else []) `sublist_of` (if c2 then ms else []).
Proof.
  destruct c1; [intros ->; done|]. intros _. apply sublist_nil_l.
Qed.

(** X12: if every flag set in one assignment is set in another, the
    patterns registered under the first are, in the same order, among those
    registered under the second: enabling flags never removes or reorders a
    pattern. *)
Theorem patterns_monotone_in_flags (fl1 fl2 : Flag -> bool) cfg :
  (forall f, fl1 f = true -> fl2 f = true) ->
  patterns (routeTable (withFlags fl1 cfg))
    `sublist_of` patterns (routeTable (withFlags fl2 cfg)).
Proof.
  intros Hle. table_of_flag.
  repeat (rewrite ?fmap_app, ?fmap_when, ?fmap_if; cbn [fmap list_fmap matcher Handle]).
  destruct (fl1 FUseNewReleaseCalendar), (fl2 FUseNewReleaseCalendar).
  all: repeat first
    [ reflexivity
    | apply sublist_app
    | apply when_patterns_sublist; apply Hle ].
  all: destruct (fl1 FSearchRoutesEnabled) eqn:Hs; [rewrite (Hle _ Hs)|apply sublist_nil_l].
  all: repeat first
    [ reflexivity
    | apply sublist_app
    | apply when_patterns_sublist; apply Hle ].
Qed.

Lemma all_patterns_NoDup cfg :
  NoDup (patterns (routeTable (withFlags (fun _ => true) cfg))).
Proof.
  table_of_flag.
  repeat (rewrite ?fmap_app, ?fmap_when, ?fmap_if; cbn [fmap list_fmap matcher Handle app]).
  repeat (apply NoDup_cons; split;
          [repeat (apply not_elem_of_cons; split; [matcher_ne|]); apply not_elem_of_nil|]).
  apply NoDup_nil_2.
Qed.

(** X13: no matcher is registered twice, whatever the flags and the
    release-calendar prefix. *)
Theorem patterns_NoDup cfg : NoDup (patterns (routeTable cfg)).
Proof.
  rewrite <- (withFlags_flagValue cfg).
  eapply sublist_NoDup; [apply (all_patterns_NoDup cfg)|].
  apply patterns_monotone_in_flags. reflexivity.
Qed.

End AllFlags.

(** ** The chain, from the security stage on *)

Lemma Header_Set_idemp (w : ResponseWriter) (key value : string) :
  Header_Set (Header_Set w key value) key value = Header_Set w key value.
Proof. unfold Header_Set; simpl. by rewrite insert_insert_eq. Qed.

(** X14: wrapping a handler in [SecurityHandler] twice is the same as
    wrapping it once. *)
Theorem SecurityHandler_idempotent (h : HandlerFunc) (w : ResponseWriter) (req : Request) :
  SecurityHandler (SecurityHandler h) w req = SecurityHandler h w req.
Proof.
  unfold SecurityHandler. destruct (setsFrameOptions (URL_Path req)); [|reflexivity].
  by rewrite Header_Set_idemp.
Qed.

Section ChainOrder.

Context {H DC FC ZC AppConfig : Type}.
Variable OtelEnabled : AppConfig -> bool.
Variable dprequest_HandlerRequestID : nat -> Constructor.
Variables log_Middleware redirects_Handler : Constructor.
Variable otelhttp_NewMiddleware : string -> Constructor.

Abbreviation New' := (@Router.New H DC FC ZC AppConfig OtelEnabled
                        dprequest_HandlerRequestID log_Middleware
                        redirects_Handler otelhttp_NewMiddleware).

(** X15: the security stage comes before the health check: on /health the
    callback gets a response that already carries X-Frame-Options:
    SAMEORIGIN, and nothing after it runs. *)
Theorem health_response_has_frame_options
  (config_Get : GetResult AppConfig) (cfg : Config H DC FC ZC) (b : Built H DC FC ZC)
  (hc routerServe : HandlerFunc) (w : ResponseWriter) (req : Request) :
  HealthCheckHandler cfg = Some hc ->
  (New' config_Get cfg).2 = Returned b ->
  URL_Path req = "/health" ->
  alice_Then (drop 2 (middleware b)) routerServe w req
  = hc (Header_Set w "X-Frame-Options" "SAMEORIGIN") req.
Proof.
  intros Hhc Hnew Hpath. destruct (New_inv _ _ _ _ _ _ _ _ Hnew) as (tracing & -> & _).
  simpl. unfold SecurityHandler, healthcheckHandler. rewrite Hpath, Hhc. reflexivity.
Qed.

(** X16: for any path other than /health, the two stages written in
    router.go do no more than set the frame header where it is due and hand
    the request to the redirects stage, also when the health-check callback
    is nil. *)
Theorem other_paths_reach_redirects
  (config_Get : GetResult AppConfig) (cfg : Config H DC FC ZC) (b : Built H DC FC ZC)
  (routerServe : HandlerFunc) (w : ResponseWriter) (req : Request) :
  (New' config_Get cfg).2 = Returned b ->
  URL_Path req <> "/health" ->
  alice_Then (drop 2 (middleware b)) routerServe w req
  = alice_Then (drop 4 (middleware b)) routerServe
      (if setsFrameOptions (URL_Path req)
       then Header_Set w "X-Frame-Options" "SAMEORIGIN" else w)
      req.
Proof.
  intros Hnew Hpath. destruct (New_inv _ _ _ _ _ _ _ _ Hnew) as (tracing & -> & _).
  simpl. unfold SecurityHandler, healthcheckHandler.
  apply String.eqb_neq in Hpath. rewrite Hpath. reflexivity.
Qed.

End ChainOrder.

(** ** The analytics backend *)

Section Backend.

Import Analytics.

Context {float64 Time AwsConfig : Type}.
Variable Format_RFC3339 : Time -> string.
Variable json_Marshal : gmap string (Value float64) -> string + string.

(** X17: the event has exactly nine fields, and each holds the argument
    it is named after: no key is written twice. *)
Theorem eventData_fields (created url term listType gaID gID : string)
  (pageIndex linkIndex pageSize : float64) :
  let data := eventData created url term listType gaID gID pageIndex linkIndex pageSize in
  data !! "created" = Some (VString created)
  /\ data !! "url" = Some (VString url)
  /\ data !! "term" = Some (VString term)
  /\ data !! "listType" = Some (VString listType)
  /\ data !! "gaID" = Some (VString gaID)
  /\ data !! "gID" = Some (VString gID)
  /\ data !! "pageIndex" = Some (VFloat pageIndex)
  /\ data !! "linkIndex" = Some (VFloat linkIndex)
  /\ data !! "pageSize" = Some (VFloat pageSize)
  /\ dom data = list_to_set ["created"; "url"; "term"; "listType"; "gaID"; "gID";
                             "pageIndex"; "linkIndex"; "pageSize"]
  /\ size data = 9.
Proof.
  intros data. subst data. unfold eventData.
  split_and!; by simplify_map_eq.
Qed.

(** X18: [NewSQSBackend] returns the error of a failed configuration load
    and no backend, or a backend and no error; every message a backend it
    returned stores goes to the queue URL it was made with. *)
Theorem NewSQSBackend_Store (load : AwsConfig + string)
  (sqs_NewFromConfig : AwsConfig -> SendMessageInput -> SendMessageReply)
  (queue : string) :
  match NewSQSBackend (AwsConfig := AwsConfig) load sqs_NewFromConfig queue with
  | (Some (b, client), None) =>
      (exists cfg, load = inl cfg /\ client = sqs_NewFromConfig cfg)
      /\ forall req url term listType gaID gID pageIndex linkIndex pageSize (w : World Time) m,
           m ∈ sent (Store Format_RFC3339 json_Marshal client b req url term listType
                      gaID gID pageIndex linkIndex pageSize w).1 ->
           m ∈ sent w \/ QueueUrl m = queue
  | (None, Some err) => load = inr err
  | _ => False
  end.
Proof.
  unfold NewSQSBackend. destruct load as [cfg|err]; [|reflexivity].
  split; [eauto|].
  intros req url term listType gaID gID pageIndex linkIndex pageSize w m.
  unfold Store.
  destruct (json_Marshal _) as [body|err]; simpl; [|tauto].
  destruct (sqs_NewFromConfig cfg _) as [[[[id|]]|] [err|]]; simpl;
    rewrite elem_of_app, list_elem_of_singleton; intros [?| ->]; auto.
Qed.

End Backend.

(** ** The statements above, at sample inputs *)

Lemma unconditional_prefix_routes_witness :
  Match Samples.templateRegexp Samples.hasFileExt Samples.isKnownBabbageEndpoint
    (routeTable Samples.plainConfig) (Samples.get "/download/data.csv")
  = Direct (Plain (Some "download")).
Proof.
  exact (proj1 (proj2 (unconditional_prefix_routes Samples.templateRegexp Samples.hasFileExt
                         Samples.isKnownBabbageEndpoint Samples.plainConfig
                         "GET" "data.csv" eq_refl))).
Defined.

Lemma census_atlas_route_witness :
  Match Samples.templateRegexp Samples.hasFileExt Samples.isKnownBabbageEndpoint
    (routeTable (Samples.handlers_on false false true false false false false false ""))
    (Samples.get "/census/maps/choropleth")
  = Direct (Plain (Some "censusatlas")).
Proof.
  exact (census_atlas_route Samples.templateRegexp Samples.hasFileExt
           Samples.isKnownBabbageEndpoint
           (Samples.handlers_on false false true false false false false false "")
           "GET" "/choropleth" eq_refl eq_refl).
Defined.

Lemma dataset_finder_route_witness :
  Match Samples.templateRegexp Samples.hasFileExt Samples.isKnownBabbageEndpoint
    (routeTable (Samples.handlers_on false false true true false false false false ""))
    (Samples.get "/census/find-a-dataset")
  = Direct (Plain (Some "search")).
Proof.
  exact (dataset_finder_route Samples.templateRegexp Samples.hasFileExt
           Samples.isKnownBabbageEndpoint
           (Samples.handlers_on false false true true false false false false "")
           "GET" eq_refl).
Defined.

Lemma legacy_search_redirects_witness :
  Match Samples.templateRegexp Samples.hasFileExt Samples.isKnownBabbageEndpoint
    (routeTable (Samples.handlers_on false false false false true false false false ""))
    (Samples.get "/searchdata")
  = Direct (redirects_DynamicRedirectHandler "/searchdata" "/search").
Proof.
  exact (proj1 (legacy_search_redirects Samples.templateRegexp Samples.hasFileExt
           Samples.isKnownBabbageEndpoint
                  (Samples.handlers_on false false false false true false false false "")
                  "GET" eq_refl)).
Defined.

Lemma search_route_witness :
  Match Samples.templateRegexp Samples.hasFileExt Samples.isKnownBabbageEndpoint
    (routeTable (Samples.handlers_on false false false false true true true false ""))
    (Samples.get "/search")
  = Direct (Plain (Some "search")).
Proof.
  exact (search_route Samples.templateRegexp Samples.hasFileExt
           Samples.isKnownBabbageEndpoint
           (Samples.handlers_on false false false false true true true false "")
           "GET" eq_refl).
Defined.

Lemma data_aggregation_routes_witness :
  Match Samples.templateRegexp Samples.hasFileExt Samples.isKnownBabbageEndpoint
    (routeTable (Samples.handlers_on false false false false false true true false ""))
    (Samples.get "/datalist")
  = Direct (Plain (Some "search")).
Proof.
  apply (data_aggregation_routes Samples.templateRegexp Samples.hasFileExt
           Samples.isKnownBabbageEndpoint
           (Samples.handlers_on false false false false false true true false "")
           "GET" "/datalist" eq_refl eq_refl).
  simpl. tauto.
Defined.

Lemma Match_total_witness :
  Match Samples.templateRegexp Samples.hasFileExt Samples.isKnownBabbageEndpoint
    (routeTable Samples.plainConfig) (Samples.get "/economy")
  <> NotFound.
Proof.
  exact (Match_total Samples.templateRegexp Samples.hasFileExt
           Samples.isKnownBabbageEndpoint
           Samples.plainConfig (Samples.get "/economy") eq_refl).
Defined.

Lemma classification_is_last_resort_witness :
  Samples.hasFileExt (Samples.get "/economy") = false
  /\ Samples.isKnownBabbageEndpoint (Samples.get "/economy") = false.
Proof.
  destruct (classification_is_last_resort Samples.templateRegexp Samples.hasFileExt
           Samples.isKnownBabbageEndpoint
              Samples.plainConfig (Samples.get "/economy")
              [allRoutesMiddleware Samples.plainConfig] (Plain (Some "babbage")) eq_refl)
    as (_ & _ & Hext & Hknown & _).
  split; assumption.
Defined.

Lemma nested_flags_need_their_guard_witness :
  routeTable (setFlag FUseNewReleaseCalendar true Samples.plainConfig)
  = routeTable Samples.plainConfig.
Proof.
  exact (proj1 (nested_flags_need_their_guard Samples.plainConfig true) eq_refl).
Defined.

Lemma patterns_monotone_in_flags_witness :
  patterns (routeTable (withFlags (sameFlag FSearchRoutesEnabled) Samples.plainConfig))
    `sublist_of` patterns (routeTable (withFlags (fun _ => true) Samples.plainConfig)).
Proof.
  apply (patterns_monotone_in_flags (sameFlag FSearchRoutesEnabled) (fun _ => true)
           Samples.plainConfig).
  intros f _. reflexivity.
Defined.

Lemma health_response_has_frame_options_witness :
  alice_Then
    (drop 2 [Samples.passOn; Samples.passOn; SecurityHandler;
             healthcheckHandler (HealthCheckHandler Samples.plainConfig);
             Samples.passOn])
    Samples.reached Samples.blank (Samples.get "/health")
  = Returned (Header_Set (Header_Set Samples.blank "X-Frame-Options" "SAMEORIGIN")
                "Health" "OK").
Proof.
  exact (health_response_has_frame_options Samples.OtelEnabled
           (fun _ => Samples.passOn) Samples.passOn Samples.passOn (fun _ => Samples.passOn)
           (Some (Samples.tracing false), None) Samples.plainConfig
           {| middleware :=
                [Samples.passOn; Samples.passOn; SecurityHandler;
                 healthcheckHandler (HealthCheckHandler Samples.plainConfig);
                 Samples.passOn];
              router := routeTable Samples.plainConfig |}
           (fun w _ => Returned (Header_Set w "Health" "OK")) Samples.reached
           Samples.blank (Samples.get "/health") eq_refl eq_refl eq_refl).
Defined.

Lemma other_paths_reach_redirects_witness :
  alice_Then
    (drop 2 [Samples.passOn; Samples.passOn; SecurityHandler;
             healthcheckHandler (HealthCheckHandler Samples.nilConfig);
             Samples.passOn])
    Samples.reached Samples.blank (Samples.get "/embed")
  = Samples.reached Samples.blank (Samples.get "/embed").
Proof.
  apply (other_paths_reach_redirects Samples.OtelEnabled
           (fun _ => Samples.passOn) Samples.passOn Samples.passOn (fun _ => Samples.passOn)
           (Some (Samples.tracing false), None) Samples.nilConfig
           {| middleware :=
                [Samples.passOn; Samples.passOn; SecurityHandler;
                 healthcheckHandler (HealthCheckHandler Samples.nilConfig);
                 Samples.passOn];
              router := routeTable Samples.nilConfig |}
           Samples.reached Samples.blank (Samples.get "/embed") eq_refl).
  simpl. discriminate.
Defined.
